(** * SiYuan MCP server: the tool dispatch runtime

    A shallow embedding of the request handlers of [SiyuanMCPServer]
    (mcp-server/core/server.ts), of the handlers [GetBlockHandler] and
    [InsertBlockHandler] (mcp-server/handlers/block.ts) and
    [FindBlockInDocumentHandler] (mcp-server/handlers/search.ts), and of
    the fragment of the JavaScript run time they rely on (truthiness,
    [String(v)], [JSON.stringify] with an indentation of two spaces,
    [JSON.parse]).

    Asynchronous functions are modelled in a state-and-exception monad: a
    promise that resolves is [Ok], a promise that rejects (or a synchronous
    [throw]) is [Throw], and [await] is the monadic bind. *)

From Stdlib Require Import String Ascii List ZArith Lia Bool Arith.
From Stdlib Require Import DecimalString DecimalPos DecimalFacts.
Import ListNotations.

#[local] Set Warnings "-register-all".
Local Open Scope list_scope.
Local Open Scope string_scope.

(* ================================================================== *)
(** * Definitions *)
(* ================================================================== *)

(** ** JavaScript values *)

(** The values that travel through the server are JSON data (arguments
    arrive in a JSON-RPC message, workspace answers are parsed JSON) plus
    [undefined], which appears as soon as a missing property is read.
    Numbers are restricted to integers; strings are sequences of bytes
    (UTF-8); an object is the list of its own properties in property
    order. *)
Inductive JSValue : Type :=
| JUndefined
| JNull
| JBool (b : bool)
| JNum (n : Z)
| JStr (s : string)
| JArr (elements : list JSValue)
| JObj (properties : list (string * JSValue)).

(** [Record<string, unknown>]: the shape of a tool's arguments. *)
Definition JSObject : Type := list (string * JSValue).

(** What a [throw] statement or a rejected promise carries: an instance of
    [Error] (or of a subclass, [name] tells which) with its [message], or
    any other value. *)
Inductive Thrown : Type :=
| ErrorObj (name message : string)
| NonError (v : JSValue).

(** [new Error(m)] *)
Definition Error (m : string) : Thrown := ErrorObj "Error" m.
(** A [TypeError] raised by the engine; the messages below follow V8's
    wording, on which nothing depends. *)
Definition TypeError (m : string) : Thrown := ErrorObj "TypeError" m.

Inductive Result (A : Type) : Type :=
| Ok (a : A)
| Throw (e : Thrown).
Arguments Ok {A} a.
Arguments Throw {A} e.

Module JS.

Definition nl : string := String "010"%char EmptyString.
Definition dquote : ascii := ascii_of_nat 34.
Definition dq : string := String dquote EmptyString.

(** [obj.key] on an object of own data properties, for a [key] that
    [Object.prototype] does not define. *)
Fixpoint get (o : JSObject) (key : string) : JSValue :=
  match o with
  | [] => JUndefined
  | (k, v) :: rest => if String.eqb k key then v else get rest key
  end.

Fixpoint has (o : JSObject) (key : string) : bool :=
  match o with
  | [] => false
  | (k, _) :: rest => if String.eqb k key then true else has rest key
  end.

(** ToBoolean: [undefined], [null], [false], [0] and the empty string are
    falsy, every other value (arrays and objects included) is truthy. *)
Definition truthy (v : JSValue) : bool :=
  match v with
  | JUndefined | JNull => false
  | JBool b => b
  | JNum n => negb (Z.eqb n 0)
  | JStr s => negb (String.eqb s "")
  | JArr _ | JObj _ => true
  end.

(** Number::toString for an integer: decimal digits, a leading minus.
    This is what JavaScript writes for an integer of magnitude below
    10^21 that a double holds (every integer up to 2^53 is one); from
    10^21 on JavaScript writes an exponent ([1e+21]), which is not
    modelled: what is proved about the text of a number is stated for
    safe integers where the magnitude matters. *)
Definition Number_toString (n : Z) : string :=
  match n with
  | Z0 => "0"
  | Zpos p => NilEmpty.string_of_uint (Pos.to_uint p)
  | Zneg p => "-" ++ NilEmpty.string_of_uint (Pos.to_uint p)
  end.

Fixpoint join (sep : string) (parts : list string) : string :=
  match parts with
  | [] => ""
  | [p] => p
  | p :: rest => p ++ sep ++ join sep rest
  end.

(** ToString, as applied by [String(v)] and by template literals.  An
    array is its elements joined by commas ([undefined] and [null] give
    the empty string).  An object goes through OrdinaryToPrimitive: the
    inherited [Object.prototype.toString] answers ["[object Object]"],
    unless an own (hence not callable) [toString] property shadows it,
    in which case no primitive can be produced and a TypeError is
    thrown. *)
Fixpoint ToString (v : JSValue) : Result string :=
  match v with
  | JUndefined => Ok "undefined"
  | JNull => Ok "null"
  | JBool true => Ok "true"
  | JBool false => Ok "false"
  | JNum n => Ok (Number_toString n)
  | JStr s => Ok s
  | JArr l =>
      (fix elems (l : list JSValue) (first : bool) : Result string :=
         match l with
         | [] => Ok ""
         | x :: rest =>
             match (match x with
                    | JUndefined | JNull => Ok ""
                    | _ => ToString x
                    end) with
             | Throw e => Throw e
             | Ok sx =>
                 match elems rest false with
                 | Throw e => Throw e
                 | Ok sr => Ok ((if first then "" else ",") ++ sx ++ sr)
                 end
             end
         end) l true
  | JObj o =>
      if has o "toString"
      then Throw (TypeError "Cannot convert object to primitive value")
      else Ok "[object Object]"
  end.

(** *** JSON.stringify(value, null, 2) *)

Definition hex_digit (n : N) : ascii :=
  ascii_of_N (if (n <? 10)%N then 48 + n else 87 + n).

(** One character of QuoteJSONString: the two-character escapes, then
    [\u00xx] (lower-case digits) for the other control characters. *)
Definition escape_char (c : ascii) : string :=
  match c with
  | "008"%char => "\b"
  | "009"%char => "\t"
  | "010"%char => "\n"
  | "012"%char => "\f"
  | "013"%char => "\r"
  | "\"%char => "\\"
  | _ =>
      if Ascii.eqb c dquote then "\" ++ dq
      else if (N_of_ascii c <? 32)%N
      then "\u00" ++ String (hex_digit (N_of_ascii c / 16))
                       (String (hex_digit (N_of_ascii c mod 16)) "")
      else String c ""
  end.

Fixpoint escape (s : string) : string :=
  match s with
  | EmptyString => ""
  | String c t => escape_char c ++ escape t
  end.

Definition QuoteJSONString (s : string) : string := dq ++ escape s ++ dq.

(** The [space] argument 2 makes the gap two spaces. *)
Definition gap : string := "  ".

Fixpoint filter_map {A B} (f : A -> option B) (l : list A) : list B :=
  match l with
  | [] => []
  | x :: rest =>
      match f x with
      | Some y => y :: filter_map f rest
      | None => filter_map f rest
      end
  end.

(** SerializeJSONProperty of ECMAScript, at the current indentation;
    [None] is the answer [undefined].  In an array an element that
    serializes to [undefined] is written [null]; in an object such a
    property is left out.  The empty array and the object without
    serialized properties are written without line breaks. *)
Fixpoint SerializeJSONProperty (indent : string) (v : JSValue)
  : option string :=
  match v with
  | JUndefined => None
  | JNull => Some "null"
  | JBool true => Some "true"
  | JBool false => Some "false"
  | JNum n => Some (Number_toString n)
  | JStr s => Some (QuoteJSONString s)
  | JArr l =>
      let stepback := indent in
      let indent := indent ++ gap in
      let partial :=
        map (fun x => match SerializeJSONProperty indent x with
                      | None => "null"
                      | Some sx => sx
                      end) l in
      match partial with
      | [] => Some "[]"
      | _ => Some ("[" ++ nl ++ indent
                     ++ join ("," ++ nl ++ indent) partial
                     ++ nl ++ stepback ++ "]")
      end
  | JObj o =>
      let stepback := indent in
      let indent := indent ++ gap in
      let partial :=
        filter_map
          (fun kv => match SerializeJSONProperty indent (snd kv) with
                     | None => None
                     | Some sx => Some (QuoteJSONString (fst kv) ++ ": " ++ sx)
                     end) o in
      match partial with
      | [] => Some "{}"
      | _ => Some ("{" ++ nl ++ indent
                     ++ join ("," ++ nl ++ indent) partial
                     ++ nl ++ stepback ++ "}")
      end
  end.

(** [JSON.stringify(v, null, 2)]; [None] is the answer [undefined]. *)
Definition JSON_stringify (v : JSValue) : option string :=
  SerializeJSONProperty "" v.

(** *** JSON.parse(text) *)

(** JSON white space: space, tab, line feed, carriage return. *)
Definition is_ws (c : ascii) : bool :=
  match c with
  | " "%char | "009"%char | "010"%char | "013"%char => true
  | _ => false
  end.

Fixpoint skip_ws (s : string) : string :=
  match s with
  | String c t => if is_ws c then skip_ws t else s
  | EmptyString => s
  end.

Definition is_digit (c : ascii) : bool :=
  ((48 <=? N_of_ascii c) && (N_of_ascii c <=? 57))%N.

Definition hex_val (c : ascii) : option N :=
  let n := N_of_ascii c in
  if ((48 <=? n) && (n <=? 57))%N then Some (n - 48)%N
  else if ((97 <=? n) && (n <=? 102))%N then Some (n - 87)%N
  else if ((65 <=? n) && (n <=? 70))%N then Some (n - 55)%N
  else None.

Definition hex4 (h1 h2 h3 h4 : ascii) : option N :=
  match hex_val h1, hex_val h2, hex_val h3, hex_val h4 with
  | Some a, Some b, Some c, Some d =>
      Some (((a * 16 + b) * 16 + c) * 16 + d)%N
  | _, _, _, _ => None
  end.

(** The bytes of the code unit written [\uXXXX].  Surrogates, which only
    mean something in pairs, are outside the byte model. *)
Definition utf8 (cp : N) : option string :=
  if (cp <? 128)%N then Some (String (ascii_of_N cp) "")
  else if (cp <? 2048)%N then
    Some (String (ascii_of_N (192 + cp / 64))
            (String (ascii_of_N (128 + cp mod 64)) ""))
  else if ((55296 <=? cp) && (cp <=? 57343))%N then None
  else
    Some (String (ascii_of_N (224 + cp / 4096))
            (String (ascii_of_N (128 + (cp / 64) mod 64))
               (String (ascii_of_N (128 + cp mod 64)) ""))).

Definition unescape (e : ascii) : option ascii :=
  match e with
  | "\"%char => Some "\"%char
  | "/"%char => Some "/"%char
  | "b"%char => Some "008"%char
  | "f"%char => Some "012"%char
  | "n"%char => Some "010"%char
  | "r"%char => Some "013"%char
  | "t"%char => Some "009"%char
  | _ => if Ascii.eqb e dquote then Some dquote else None
  end.

Definition prepend (p : string) (r : option (string * string))
  : option (string * string) :=
  match r with
  | Some (s, rest) => Some (p ++ s, rest)
  | None => None
  end.

(** The characters of a string literal after its opening quote, up to
    and including the closing quote: the string denoted and the text
    that follows.  Raw control characters are not allowed. *)
Fixpoint parse_string_chars (s : string) : option (string * string) :=
  match s with
  | EmptyString => None
  | String c t =>
      if Ascii.eqb c dquote then Some ("", t)
      else if Ascii.eqb c "\" then
        match t with
        | EmptyString => None
        | String "u" t1 =>
            match t1 with
            | String h1 (String h2 (String h3 (String h4 t2))) =>
                match hex4 h1 h2 h3 h4 with
                | Some cp =>
                    match utf8 cp with
                    | Some bytes => prepend bytes (parse_string_chars t2)
                    | None => None
                    end
                | None => None
                end
            | _ => None
            end
        | String e t1 =>
            match unescape e with
            | Some c' => prepend (String c' "") (parse_string_chars t1)
            | None => None
            end
        end
      else if (N_of_ascii c <? 32)%N then None
      else prepend (String c "") (parse_string_chars t)
  end.

Fixpoint span_digits (s : string) : string * string :=
  match s with
  | String c t =>
      if is_digit c
      then let (d, r) := span_digits t in (String c d, r)
      else ("", s)
  | EmptyString => ("", "")
  end.

(** [0] or a digit sequence without a leading zero. *)
Definition parse_digits (s : string) : option (Z * string) :=
  let (ds, rest) := span_digits s in
  match ds with
  | EmptyString => None
  | String "0" (String _ _) => None
  | _ =>
      match NilEmpty.uint_of_string ds with
      | Some d => Some (Z.of_uint d, rest)
      | None => None
      end
  end.

(** An integer literal.  A fraction or an exponent is not consumed, so a
    text that has one is not accepted by the callers: [JS.JSON_parse]
    answers [None] on it, where [JSON.parse] succeeds with a number that
    [JNum] cannot hold.  [-0] is read as [0] ([JNum] has one zero), and
    an integer beyond 2^53 is kept exact where JavaScript rounds it: the
    answer is that of [JSON.parse] for the safe integers. *)
Definition parse_number (s : string) : option (JSValue * string) :=
  match s with
  | String "-" t =>
      match parse_digits t with
      | Some (n, rest) => Some (JNum (- n), rest)
      | None => None
      end
  | _ =>
      match parse_digits s with
      | Some (n, rest) => Some (JNum n, rest)
      | None => None
      end
  end.

(** CreateDataProperty on the object under construction: a repeated name
    keeps its place and takes the later value. *)
Fixpoint set_property (o : JSObject) (k : string) (v : JSValue)
  : JSObject :=
  match o with
  | [] => [(k, v)]
  | (k', v') :: rest =>
      if String.eqb k' k then (k', v) :: rest
      else (k', v') :: set_property rest k v
  end.

(** The object of a JSON text, its properties in the order of the text.
    JavaScript lists the properties whose name is an integer index
    first, in ascending order: the answer is that of [JSON.parse] when
    no name is written in digits only ([exact_json] below). *)
Definition make_object (members : list (string * JSValue)) : JSObject :=
  fold_left (fun o kv => set_property o (fst kv) (snd kv)) members [].

(** [Some rest] when the text is [prefix] followed by [rest]. *)
Fixpoint strip_prefix (prefix s : string) : option string :=
  match prefix, s with
  | EmptyString, _ => Some s
  | String c p, String c' t =>
      if Ascii.eqb c' c then strip_prefix p t else None
  | String _ _, EmptyString => None
  end.

(** The JSON grammar by recursive descent, [fuel] bounding the nesting
    and the number of elements.  [parse_value] expects the value at the
    head of the text; [parse_elements] and [parse_members] read what
    follows the opening bracket of a non-empty array or object (white
    space skipped), closing bracket included. *)
Fixpoint parse_value (fuel : nat) (s : string) {struct fuel}
  : option (JSValue * string) :=
  match fuel with
  | O => None
  | S fuel' =>
      match strip_prefix "null" s with
      | Some rest => Some (JNull, rest)
      | None =>
      match strip_prefix "true" s with
      | Some rest => Some (JBool true, rest)
      | None =>
      match strip_prefix "false" s with
      | Some rest => Some (JBool false, rest)
      | None =>
      match strip_prefix "[" s with
      | Some t =>
          match strip_prefix "]" (skip_ws t) with
          | Some rest => Some (JArr [], rest)
          | None =>
              match parse_elements fuel' (skip_ws t) with
              | Some (l, rest) => Some (JArr l, rest)
              | None => None
              end
          end
      | None =>
      match strip_prefix "{" s with
      | Some t =>
          match strip_prefix "}" (skip_ws t) with
          | Some rest => Some (JObj [], rest)
          | None =>
              match parse_members fuel' (skip_ws t) with
              | Some (m, rest) => Some (JObj (make_object m), rest)
              | None => None
              end
          end
      | None =>
      match strip_prefix dq s with
      | Some t =>
          match parse_string_chars t with
          | Some (str, rest) => Some (JStr str, rest)
          | None => None
          end
      | None => parse_number s
      end end end end end end
  end
with parse_elements (fuel : nat) (s : string) {struct fuel}
  : option (list JSValue * string) :=
  match fuel with
  | O => None
  | S fuel' =>
      match parse_value fuel' s with
      | None => None
      | Some (v, r) =>
          match strip_prefix "," (skip_ws r) with
          | Some r' =>
              match parse_elements fuel' (skip_ws r') with
              | Some (l, rest) => Some (v :: l, rest)
              | None => None
              end
          | None =>
              match strip_prefix "]" (skip_ws r) with
              | Some rest => Some ([v], rest)
              | None => None
              end
          end
      end
  end
with parse_members (fuel : nat) (s : string) {struct fuel}
  : option (list (string * JSValue) * string) :=
  match fuel with
  | O => None
  | S fuel' =>
      match strip_prefix dq s with
      | None => None
      | Some t =>
          match parse_string_chars t with
          | None => None
          | Some (k, r) =>
              match strip_prefix ":" (skip_ws r) with
              | None => None
              | Some r1 =>
                  match parse_value fuel' (skip_ws r1) with
                  | None => None
                  | Some (v, r2) =>
                      match strip_prefix "," (skip_ws r2) with
                      | Some r3 =>
                          match parse_members fuel' (skip_ws r3) with
                          | Some (m, rest) => Some ((k, v) :: m, rest)
                          | None => None
                          end
                      | None =>
                          match strip_prefix "}" (skip_ws r2) with
                          | Some rest => Some ([(k, v)], rest)
                          | None => None
                          end
                      end
                  end
              end
          end
      end
  end.

(** [JSON.parse(text)]; [None] stands for the SyntaxError (and for the
    texts outside the model: numbers with a fraction or an exponent,
    escaped surrogates). *)
Definition JSON_parse (text : string) : option JSValue :=
  match parse_value (String.length text) (skip_ws text) with
  | Some (v, rest) =>
      match skip_ws rest with
      | EmptyString => Some v
      | _ => None
      end
  | None => None
  end.

(** *** The values that JSON can express *)

Fixpoint distinct (keys : list string) : bool :=
  match keys with
  | [] => true
  | k :: rest => negb (existsb (String.eqb k) rest) && distinct rest
  end.

(** No [undefined] anywhere inside, which JSON cannot write; the names of
    the properties of an object are distinct, as they are in any
    object. *)
Fixpoint is_json (v : JSValue) : bool :=
  match v with
  | JUndefined => false
  | JNull | JBool _ | JNum _ | JStr _ => true
  | JArr l => forallb is_json l
  | JObj o => distinct (map fst o) && forallb (fun kv => is_json (snd kv)) o
  end.

(** *** The values on which this model of JSON is exact

    [JNum] holds an integer.  The model writes and reads an integer as
    JavaScript does while its magnitude is at most 2^53 - 1
    ([Number.MAX_SAFE_INTEGER]); beyond, JavaScript rounds to a double
    and, from 10^21 on, writes an exponent, which the model does not.
    The properties of a [JObj] are in the order of the list, and the
    model of [JSON.parse] keeps the order of the text; JavaScript lists
    the properties whose name is an integer index first, in ascending
    order, so that the model agrees with it on the objects none of whose
    names is written in digits only. *)





(** *** Measures used to reason about the parser *)

Fixpoint all_ws (s : string) : bool :=
  match s with
  | EmptyString => true
  | String c t => is_ws c && all_ws t
  end.

Definition head (s : string) : option ascii :=
  match s with
  | EmptyString => None
  | String c _ => Some c
  end.

(** The fuel that [parse_value] needs for the text of a value. *)
Fixpoint weight (v : JSValue) : nat :=
  match v with
  | JArr l => S (list_sum (map (fun x => S (weight x)) l))
  | JObj o => S (list_sum (map (fun kv => S (weight (snd kv))) o))
  | _ => 1
  end.

(** The text of a value inside an array. *)
Definition element_text (indent : string) (v : JSValue) : string :=
  match SerializeJSONProperty indent v with
  | None => "null"
  | Some sx => sx
  end.

(** The text of a property of an object, if it has one. *)
Definition member_text (indent : string) (kv : string * JSValue)
  : option string :=
  match SerializeJSONProperty indent (snd kv) with
  | None => None
  | Some sx => Some (QuoteJSONString (fst kv) ++ ": " ++ sx)
  end.

(** The characters a JSON value can start with. *)
Definition value_start (c : ascii) : bool :=
  is_digit c
  || existsb (Ascii.eqb c) ["-"; "n"; "t"; "f"; "["; "{"; dquote]%char.

(** What may follow a number: anything but a digit. *)
Definition ends_number (rest : string) : bool :=
  match rest with
  | EmptyString => true
  | String c _ => negb (is_digit c)
  end.

(** [text] is a text of [v] that the parser reads back: it starts like a
    value, it is long enough for the fuel that [JSON_parse] grants, and
    [parse_value] answers [v] and stops where the text ends. *)
Definition reads_back (v : JSValue) (text : string) : Prop :=
  (exists c, head text = Some c /\ value_start c = true)
  /\ weight v <= String.length text
  /\ forall fuel rest,
       weight v <= fuel -> ends_number rest = true ->
       parse_value fuel (text ++ rest) = Some (v, rest).

End JS.

(** ** The run time of the server *)

Inductive LogLevel : Type := DEBUG | INFO | ERROR.

Section Runtime.

(** The state of the remote workspace, reached through the client
    facade; the server never looks inside. *)
Context {W : Type}.

(** What a request can change: the lines written by the logger and the
    remote workspace. *)
Record State : Type := mkState {
  logs : list (LogLevel * string);
  world : W
}.

(** An asynchronous computation: it ends resolved or rejected, in a new
    state. *)
Definition M (A : Type) : Type := State -> Result A * State.

Definition ret {A} (a : A) : M A := fun s => (Ok a, s).

Definition throw {A} (e : Thrown) : M A := fun s => (Throw e, s).

(** [await c] followed by [k] *)
Definition bind {A B} (c : M A) (k : A -> M B) : M B :=
  fun s =>
    match c s with
    | (Ok a, s') => k a s'
    | (Throw e, s') => (Throw e, s')
    end.

(** [try { body } catch (error) { handler }] *)
Definition try_catch {A} (body : M A) (handler : Thrown -> M A) : M A :=
  fun s =>
    match body s with
    | (Ok a, s') => (Ok a, s')
    | (Throw e, s') => handler e s'
    end.

(** A synchronous operation of the language that may throw. *)
Definition lift {A} (r : Result A) : M A := fun s => (r, s).

End Runtime.

Arguments State : clear implicits.
Arguments M : clear implicits.

Declare Scope js_scope.
Delimit Scope js_scope with js.
Notation "x <- c ;; k" := (bind c (fun x => k))
  (at level 61, c at next level, right associativity) : js_scope.
Notation "c ;;; k" := (bind c (fun _ => k))
  (at level 61, right associativity) : js_scope.
Local Open Scope js_scope.

Section Server.

Context {W : Type}.

(** Modelled from the spec: the logger ([ConsoleLogger], core/logger.ts,
    is not among the sources) offers [debug], [info] and [error], which
    are fire-and-forget and never throw.  Here a call adds one line to
    the log. *)
Record Logger : Type := {
  debug : string -> M W unit;
  info : string -> M W unit;
  error : string -> M W unit
}.

(** Modelled from the spec: what one call of the logger leaves behind, a
    line at the end of the log. *)
Definition logged (level : LogLevel) (msg : string) (s : State W)
  : State W :=
  mkState (logs s ++ [(level, msg)])%list (world s).

(** Modelled from the spec: a logger method; it always returns. *)
Definition log_line (level : LogLevel) (msg : string) : M W unit :=
  fun s => (Ok tt, logged level msg s).

(** Modelled from the spec: the [ConsoleLogger] of the server. *)
Definition ConsoleLogger : Logger :=
  {| debug := log_line DEBUG; info := log_line INFO;
     error := log_line ERROR |}.

(** The operations of the workspace facade ([createSiyuanTools]) that the
    handlers below call; each resolves to a value or rejects. *)
Record SiyuanBlockApi : Type := {
  getBlockKramdown : JSValue -> M W JSValue;
  insertBlockBefore : JSValue -> JSValue -> M W JSValue;
  insertBlockAfter : JSValue -> JSValue -> M W JSValue
}.

Record SiyuanSearchApi : Type := {
  query : string -> M W (list JSValue)
}.

Record SiyuanTools : Type := {
  block : SiyuanBlockApi;
  search : SiyuanSearchApi
}.

(** The fields of the configuration that reach the workspace facade. *)
Record ServerConfig : Type := {
  baseUrl : string;
  token : string
}.

Record ExecutionContext : Type := {
  siyuan : SiyuanTools;
  config : ServerConfig;
  logger : Logger
}.

(** [BaseToolHandler]: the descriptor and [execute]. *)
Record ToolHandler : Type := {
  name : string;
  description : string;
  inputSchema : JSValue;
  execute : JSObject -> ExecutionContext -> M W JSValue
}.

(** *** The registry *)

(** Modelled from the spec: [DefaultToolRegistry] (core/registry.ts is
    not among the sources) is a mapping from tool name to handler, kept
    in registration order.  [register] adds the handler under its name
    and fails if the name is already present; [get] answers the handler
    or nothing; [getAll] lists the handlers in registration order. *)
Definition DefaultToolRegistry : Type := list ToolHandler.

(** Modelled from the spec: [new DefaultToolRegistry()]. *)
Definition empty_registry : DefaultToolRegistry := [].

(** Modelled from the spec: [get(name) -> handler | absent]. *)
Fixpoint get (registry : DefaultToolRegistry) (n : string)
  : option ToolHandler :=
  match registry with
  | [] => None
  | h :: rest => if String.eqb (name h) n then Some h else get rest n
  end.

(** Modelled from the spec: [getAll()], the handlers in registration
    order. *)
Definition getAll (registry : DefaultToolRegistry) : list ToolHandler :=
  registry.

(** Modelled from the spec: [register(handler)] adds the handler under
    [handler.name] and fails if the name is already present (the spec
    leaves the message of the failure open). *)
Definition register (registry : DefaultToolRegistry) (handler : ToolHandler)
  : Result DefaultToolRegistry :=
  match get registry (name handler) with
  | Some _ =>
      Throw (Error ("Tool " ++ name handler ++ " is already registered"))
  | None => Ok (registry ++ [handler])%list
  end.

(** The registries that [register] calls can build from the empty one. *)
Inductive reachable : DefaultToolRegistry -> Prop :=
| reachable_empty : reachable empty_registry
| reachable_register registry handler registry' :
    reachable registry ->
    register registry handler = Ok registry' ->
    reachable registry'.

End Server.

Arguments Logger : clear implicits.
Arguments SiyuanBlockApi : clear implicits.
Arguments SiyuanSearchApi : clear implicits.
Arguments SiyuanTools : clear implicits.
Arguments ExecutionContext : clear implicits.
Arguments ToolHandler : clear implicits.
Arguments DefaultToolRegistry : clear implicits.

(** ** Tool handlers *)

(** [s.replace(/'/g, "''")]: every single quote is doubled. *)
Fixpoint double_quotes (s : string) : string :=
  match s with
  | EmptyString => ""
  | String c t =>
      if Ascii.eqb c "'" then String "'" (String "'" (double_quotes t))
      else String c (double_quotes t)
  end.

(** [v.key] for a [key] that no prototype defines: reading a property of
    [undefined] or [null] throws, an object answers its own property, any
    other value answers [undefined]. *)
Definition member (v : JSValue) (key : string) : Result JSValue :=
  match v with
  | JUndefined =>
      Throw (TypeError ("Cannot read properties of undefined (reading '"
                          ++ key ++ "')"))
  | JNull =>
      Throw (TypeError ("Cannot read properties of null (reading '"
                          ++ key ++ "')"))
  | JObj o => Ok (JS.get o key)
  | _ => Ok JUndefined
  end.

(** block.ts *)
Module GetBlockHandler.

Definition name : string := "get_block".

Definition description : string :=
  "Get the content of a single block by its ID in kramdown format. More efficient than fetching an entire document when you only need one block.".

Definition inputSchema : JSValue :=
  JObj [
    ("type", JStr "object");
    ("properties", JObj [
       ("block_id", JObj [
          ("type", JStr "string");
          ("description", JStr "The block ID to retrieve")])]);
    ("required", JArr [JStr "block_id"])].

Definition execute {W} (args : JSObject) (context : ExecutionContext W)
  : M W JSValue :=
  kramdown <-
    getBlockKramdown (block (siyuan context)) (JS.get args "block_id") ;;
  ret (JObj [("id", JS.get args "block_id"); ("kramdown", kramdown)]).

Definition handler {W} : ToolHandler W :=
  @Build_ToolHandler W name description inputSchema execute.

End GetBlockHandler.

Module InsertBlockHandler.

Definition name : string := "insert_block".

Definition description : string :=
  "Insert a new block before or after an existing block. Provide exactly one of before_id or after_id to control placement.".

Definition inputSchema : JSValue :=
  JObj [
    ("type", JStr "object");
    ("properties", JObj [
       ("content", JObj [
          ("type", JStr "string");
          ("description", JStr "Markdown content for the new block")]);
       ("before_id", JObj [
          ("type", JStr "string");
          ("description", JStr "OPTION 1: Insert BEFORE this block ID. Cannot be used together with after_id.")]);
       ("after_id", JObj [
          ("type", JStr "string");
          ("description", JStr "OPTION 2: Insert AFTER this block ID. Cannot be used together with before_id.")])]);
    ("required", JArr [JStr "content"])].

Definition execute {W} (args : JSObject) (context : ExecutionContext W)
  : M W JSValue :=
  let hasBefore := JS.truthy (JS.get args "before_id") in
  let hasAfter := JS.truthy (JS.get args "after_id") in
  if negb hasBefore && negb hasAfter then
    throw (Error "Must provide exactly one of: before_id or after_id")
  else if hasBefore && hasAfter then
    throw (Error "Cannot provide both before_id and after_id — choose only one")
  else
    blockId <-
      (if hasBefore
       then insertBlockBefore (block (siyuan context))
              (JS.get args "before_id") (JS.get args "content")
       else insertBlockAfter (block (siyuan context))
              (JS.get args "after_id") (JS.get args "content")) ;;
    ret (JObj [("block_id", blockId)]).

Definition handler {W} : ToolHandler W :=
  @Build_ToolHandler W name description inputSchema execute.

End InsertBlockHandler.

(** search.ts *)
Module FindBlockInDocumentHandler.

Definition name : string := "find_block_in_document".

Definition description : string :=
  "Search for blocks within a specific document by content keyword. Faster than loading the full document when you need to find a particular paragraph, heading, or list within a known note.".

Definition inputSchema : JSValue :=
  JObj [
    ("type", JStr "object");
    ("properties", JObj [
       ("document_id", JObj [
          ("type", JStr "string");
          ("description", JStr "The document ID (root_id) to search within")]);
       ("query", JObj [
          ("type", JStr "string");
          ("description", JStr "Content keyword to search for within the document")]);
       ("types", JObj [
          ("type", JStr "array");
          ("items", JObj [("type", JStr "string")]);
          ("description",
           JStr ("Optional: Block types to filter (e.g. [" ++ JS.dq ++ "h"
                 ++ JS.dq ++ "] for headings only, [" ++ JS.dq ++ "p"
                 ++ JS.dq
                 ++ "] for paragraphs). Omit to search all types."))])]);
    ("required", JArr [JStr "document_id"; JStr "query"])].

Section Execute.

Context {W : Type}.

(** Whether ToNumber of a string is a number greater than zero.  The
    conversion of strings to (floating point) numbers is not
    modelled; nothing below depends on its answers. *)
Variable StringToNumber_positive : string -> bool.

(** [w > 0] for an arbitrary value [w]: ToPrimitive with hint number,
    then ToNumber.  [undefined] is NaN and [null] is 0; an array goes
    through its string; an object gives NaN, or a TypeError when no
    primitive can be produced. *)
Definition greater_than_zero (w : JSValue) : Result bool :=
  match w with
  | JUndefined | JNull => Ok false
  | JBool b => Ok b
  | JNum n => Ok (0 <? n)%Z
  | JStr s => Ok (StringToNumber_positive s)
  | JArr _ =>
      match JS.ToString w with
      | Ok s => Ok (StringToNumber_positive s)
      | Throw e => Throw e
      end
  | JObj _ =>
      match JS.ToString w with
      | Ok _ => Ok false
      | Throw e => Throw e
      end
  end.

(** [t.replace(/'/g, "''")] *)
Definition replace_quotes (t : JSValue) : Result string :=
  match t with
  | JStr s => Ok (double_quotes s)
  | JUndefined =>
      Throw (TypeError "Cannot read properties of undefined (reading 'replace')")
  | JNull =>
      Throw (TypeError "Cannot read properties of null (reading 'replace')")
  | _ => Throw (TypeError "replace is not a function")
  end.

(** [args.types.map((t) => `'${t.replace(/'/g, "''")}'`)] on the
    elements of an array, the first failure ending the loop. *)
Fixpoint quote_types (types : list JSValue) : Result (list string) :=
  match types with
  | [] => Ok []
  | t :: rest =>
      match replace_quotes t with
      | Throw e => Throw e
      | Ok s =>
          match quote_types rest with
          | Throw e => Throw e
          | Ok l => Ok (("'" ++ s ++ "'") :: l)
          end
      end
  end.

(** The part [ AND type IN (...)] of the statement, empty when the
    condition [args.types && args.types.length > 0] fails.  Only an
    array has a [map] method: with any other value that passes the
    condition the call of [map] throws. *)
Definition types_clause (types : JSValue) : Result string :=
  let not_a_function : Result string :=
    Throw (TypeError "args.types.map is not a function") in
  if negb (JS.truthy types) then Ok ""
  else
    match types with
    | JArr [] => Ok ""
    | JArr l =>
        match quote_types l with
        | Throw e => Throw e
        | Ok quoted => Ok (" AND type IN (" ++ JS.join "," quoted ++ ")")
        end
    | JStr _ => not_a_function
    | JObj o =>
        match greater_than_zero (JS.get o "length") with
        | Throw e => Throw e
        | Ok true => not_a_function
        | Ok false => Ok ""
        end
    | _ => Ok ""
    end.

(** The statement built by [execute], up to the call of the search
    collaborator. *)
Definition build_sql (args : JSObject) : Result string :=
  match JS.ToString (JS.get args "document_id") with
  | Throw e => Throw e
  | Ok document_id =>
      match replace_quotes (JS.get args "query") with
      | Throw e => Throw e
      | Ok q =>
          let sql :=
            "SELECT id, type, content FROM blocks WHERE root_id = '"
            ++ document_id ++ "' AND content LIKE '%" ++ q ++ "%'" in
          match types_clause (JS.get args "types") with
          | Throw e => Throw e
          | Ok clause => Ok (sql ++ clause ++ " LIMIT 20")
          end
      end
  end.

(** [results.map((b) => ({ id: b.id, type: b.type, content: b.content }))] *)
Fixpoint project_rows (results : list JSValue) : Result (list JSValue) :=
  match results with
  | [] => Ok []
  | b :: rest =>
      match member b "id", member b "type", member b "content" with
      | Ok i, Ok t, Ok c =>
          match project_rows rest with
          | Throw e => Throw e
          | Ok l =>
              Ok (JObj [("id", i); ("type", t); ("content", c)] :: l)
          end
      | Throw e, _, _ | _, Throw e, _ | _, _, Throw e => Throw e
      end
  end.

Definition execute (args : JSObject) (context : ExecutionContext W)
  : M W JSValue :=
  sql <- lift (build_sql args) ;;
  results <- query (search (siyuan context)) sql ;;
  rows <- lift (project_rows results) ;;
  ret (JArr rows).

Definition handler : ToolHandler W :=
  @Build_ToolHandler W name description inputSchema execute.

End Execute.

End FindBlockInDocumentHandler.

(** ** The protocol's data *)

Module MCPTool.
Record t : Type := { name : string; description : string;
                     inputSchema : JSValue }.
End MCPTool.

Module Prompt.
Record t : Type := { name : string; description : string }.
End Prompt.

Module TextContent.
(** [{ type: 'text', text }] *)
Record t : Type := { type : string; text : string }.
End TextContent.

Module PromptMessage.
Record t : Type := { role : string; content : TextContent.t }.
End PromptMessage.

Module CallToolResult.
(** The response envelope; [isError] is an optional property, [None]
    when the object returned does not have it. *)
Record t : Type := { content : list TextContent.t; isError : option bool }.
End CallToolResult.

(** ** The server (core/server.ts) *)

Definition getUsageGuide : string :=
"# SiYuan MCP Server Usage Guide

## Overview

This MCP server provides tools for interacting with a SiYuan Note workspace, including search, document management, block-level editing, snapshots, and tag management.

## Efficiency tips

- **Prefer block-level tools for targeted edits.** When you have a block ID, use get_block / update_block instead of loading the full document. This saves tokens and is faster.
- **Use document-level tools when full context is needed.** get_document_content is the right choice when you need to understand the overall structure of a note.
- **Use execute_sql for flexible queries.** Direct SQL gives access to the blocks table for complex lookups, aggregation, and sorting.

## Data safety

1. Before bulk modifications or deletions, use create_snapshot (add a descriptive memo).
2. Perform the changes.
3. If something goes wrong, use list_snapshots then rollback_to_snapshot to restore.

## Suggested workflow

1. **Find documents** — use unified_search or execute_sql
2. **Read content** — use get_document_content (full doc) or get_block (single block)
3. **Create snapshot** — use create_snapshot before making changes
4. **Edit** — use update_block, insert_block, append_block for targeted edits, or update_document for full rewrites
5. **Verify** — re-read the content to confirm
6. **Rollback if needed** — use rollback_to_snapshot

## Tool categories

### Search & Query
- unified_search — search by content, filename, tag, or combinations
- execute_sql — raw SQL against the blocks table

### Document operations
- get_document_content, create_document, append_to_document, update_document
- rename_document, remove_document, move_documents, get_document_tree
- get_hpath_by_id — resolve a block ID to a human-readable path
- append_to_daily_note — append to today's daily note (auto-creates)

### Block operations
- get_block / update_block — read or edit a single block by ID
- append_block / insert_block — add content at a specific position
- move_block — reorder or relocate blocks
- get_block_attrs / set_block_attrs — read or write custom metadata

### Notebook, Snapshot & Tag tools
- list_notebooks, get_recently_updated_documents, create_notebook
- create_snapshot, list_snapshots, rollback_to_snapshot
- list_all_tags, batch_replace_tag

## Key concepts

- Every piece of content in SiYuan is a **block** with a unique ID (e.g. 20240101120000-abc1234).
- **Documents** are top-level blocks (type='d') containing child blocks.
- When creating documents, paths use the format /folder/document (no .md extension).
- Snapshots require the data repo feature to be enabled in SiYuan.
- Avoid concurrent modifications to the same document.
".

Section SiyuanMCPServer.

Context {W : Type}.

(** The private fields of the server; its [logger] is the
    [ConsoleLogger], which is also the logger of the context. *)
Record SiyuanMCPServer : Type := {
  registry : DefaultToolRegistry W;
  context : ExecutionContext W
}.

(** [for (const handler of handlers) { ... }], the registry being passed
    along; a failing [register] ends the loop (and the start-up). *)
Fixpoint registerHandlers (handlers : list (ToolHandler W))
  (registry : DefaultToolRegistry W) : M W (DefaultToolRegistry W) :=
  match handlers with
  | [] => ret registry
  | handler :: rest =>
      registry' <- lift (register registry handler) ;;
      debug ConsoleLogger ("Registered tool: " ++ name handler) ;;;
      registerHandlers rest registry'
  end.

(** The constructor, given the facade that [createSiyuanTools] builds and
    the list that [createAllHandlers] answers. *)
Definition constructor (config : ServerConfig) (siyuan : SiyuanTools W)
  (createAllHandlers : list (ToolHandler W)) : M W SiyuanMCPServer :=
  let context :=
    {| siyuan := siyuan; config := config; logger := ConsoleLogger |} in
  registry <- registerHandlers createAllHandlers empty_registry ;;
  ret {| registry := registry; context := context |}.

Variable this : SiyuanMCPServer.

Definition ListToolsRequestHandler : M W (list MCPTool.t) :=
  let tools :=
    map (fun handler =>
           {| MCPTool.name := name handler;
              MCPTool.description := description handler;
              MCPTool.inputSchema := inputSchema handler |})
        (getAll (registry this)) in
  debug ConsoleLogger
    ("Listing " ++ JS.Number_toString (Z.of_nat (List.length tools))
       ++ " tools") ;;;
  ret tools.

Definition ListPromptsRequestHandler : M W (list Prompt.t) :=
  ret [ {| Prompt.name := "siyuan-usage-guide";
           Prompt.description :=
             "Usage guide and best practices for the SiYuan MCP server" |} ].

Definition text_content (text : string) : TextContent.t :=
  {| TextContent.type := "text"; TextContent.text := text |}.

Definition GetPromptRequestHandler (name : string)
  : M W (list PromptMessage.t) :=
  if String.eqb name "siyuan-usage-guide" then
    ret [ {| PromptMessage.role := "user";
             PromptMessage.content :=
               text_content "Please read the SiYuan MCP server usage guide." |};
          {| PromptMessage.role := "assistant";
             PromptMessage.content := text_content getUsageGuide |} ]
  else throw (Error ("Unknown prompt: " ++ name)).

(** [error instanceof Error ? error.message : String(error)] *)
Definition message_of (error : Thrown) : Result string :=
  match error with
  | ErrorObj _ message => Ok message
  | NonError v => JS.ToString v
  end.

(** The text of a result: ['Success'] for [undefined], a string as it
    is, [JSON.stringify(result, null, 2)] otherwise (which answers a
    string for every value but [undefined]). *)
Definition result_text (result : JSValue) : string :=
  match result with
  | JUndefined => "Success"
  | JStr s => s
  | _ =>
      match JS.JSON_stringify result with
      | Some text => text
      | None => "undefined"
      end
  end.

(** [args || {}], the arguments of a request being an object or absent. *)
Definition or_empty (args : option JSObject) : JSObject :=
  match args with
  | Some a => a
  | None => []
  end.

Definition CallToolRequestHandler (name : string)
  (args : option JSObject) : M W CallToolResult.t :=
  info ConsoleLogger ("Tool called: " ++ name) ;;;
  try_catch
    (match get (registry this) name with
     | None => throw (Error ("Unknown tool: " ++ name))
     | Some handler =>
         result <- execute handler (or_empty args) (context this) ;;
         ret {| CallToolResult.content := [text_content (result_text result)];
                CallToolResult.isError := None |}
     end)
    (fun caught =>
       errorMessage <- lift (message_of caught) ;;
       error ConsoleLogger ("Tool execution failed: " ++ errorMessage) ;;;
       ret {| CallToolResult.content :=
                [text_content ("Error: " ++ errorMessage)];
              CallToolResult.isError := Some true |}).

(** *** The dispatch loop *)

Inductive Request : Type :=
| ListToolsRequest
| ListPromptsRequest
| GetPromptRequest (name : string)
| CallToolRequest (name : string) (arguments : option JSObject).

(** What goes back to the caller: the result of the request handler, or
    a protocol-level error when the request handler rejected. *)
Inductive Response : Type :=
| ListToolsResult (tools : list MCPTool.t)
| ListPromptsResult (prompts : list Prompt.t)
| GetPromptResult (messages : list PromptMessage.t)
| CallToolResponse (result : CallToolResult.t)
| ProtocolError (e : Thrown).

(** Modelled from the spec: the answer to one request, a rejection of
    the request handler becoming a protocol-level error. *)
Definition respond {A} (wrap : A -> Response) (c : M W A)
  : State W -> Response * State W :=
  fun s =>
    match c s with
    | (Ok a, s') => (wrap a, s')
    | (Throw e, s') => (ProtocolError e, s')
    end.

(** Modelled from the spec: the loop of the protocol library (not part
    of the repository) takes each request from [received] to
    [responded] through the request handler of its kind, with no state
    across requests other than what the handlers change. *)
Definition dispatch (request : Request) : State W -> Response * State W :=
  match request with
  | ListToolsRequest => respond ListToolsResult ListToolsRequestHandler
  | ListPromptsRequest => respond ListPromptsResult ListPromptsRequestHandler
  | GetPromptRequest name =>
      respond GetPromptResult (GetPromptRequestHandler name)
  | CallToolRequest name arguments =>
      respond CallToolResponse (CallToolRequestHandler name arguments)
  end.

(** Modelled from the spec: the requests are answered one after the
    other, whatever the answers are. *)
Fixpoint serve (requests : list Request) (s : State W)
  : list Response * State W :=
  match requests with
  | [] => ([], s)
  | request :: rest =>
      let (response, s') := dispatch request s in
      let (responses, s'') := serve rest s' in
      (response :: responses, s'')
  end.

End SiyuanMCPServer.

Arguments SiyuanMCPServer : clear implicits.

(** ** The block operations of the workspace (src/api/block.ts) *)

Module SiyuanResponse.
(** Modelled from its uses in api/block.ts: what [client.request]
    resolves to (api/client.ts is not among the sources), an object with
    the properties [code], [msg] and [data]. *)
Record t : Type := { code : JSValue; msg : JSValue; data : JSValue }.
End SiyuanResponse.

Section Client.

Context {W : Type}.

(** The client of the workspace: [request(endpoint, body)] resolves to
    the answer or rejects. *)
Record SiyuanClient : Type := {
  request : string -> JSValue -> M W SiyuanResponse.t
}.

End Client.

Arguments SiyuanClient : clear implicits.

(** [v !== 0] *)
Definition strict_not_zero (v : JSValue) : bool :=
  match v with
  | JNum 0 => false
  | _ => true
  end.

(** The bytes of the first character of a string: the leading byte and
    the continuation bytes that follow it. *)
Fixpoint continuation_bytes (s : string) : string :=
  match s with
  | String c t =>
      if ((128 <=? N_of_ascii c) && (N_of_ascii c <? 192))%N
      then String c (continuation_bytes t)
      else ""
  | EmptyString => ""
  end.

(** [v[0]]: the first element of an array, the property ["0"] of an
    object, the first character of a string (a character outside the
    basic plane, of which JavaScript answers the first code unit only, is
    kept whole); [undefined] when there is none and for numbers and
    booleans; reading it from [undefined] or [null] throws. *)
Definition index0 (v : JSValue) : Result JSValue :=
  match v with
  | JUndefined =>
      Throw (TypeError "Cannot read properties of undefined (reading '0')")
  | JNull => Throw (TypeError "Cannot read properties of null (reading '0')")
  | JArr [] => Ok JUndefined
  | JArr (x :: _) => Ok x
  | JObj o => Ok (JS.get o "0")
  | JStr EmptyString => Ok JUndefined
  | JStr (String c t) => Ok (JStr (String c (continuation_bytes t)))
  | JBool _ | JNum _ => Ok JUndefined
  end.

Module BlockApi.

Section Methods.

Context {W : Type}.

(** [constructor(private client: SiyuanClient)] *)
Variable client : SiyuanClient W.

(** [if (response.code !== 0) { throw new Error(`Failed to ...:
    ${response.msg}`); }], the statement that seven of the methods
    share; [failure] is the text before the message of the workspace. *)
Definition check (failure : string) (response : SiyuanResponse.t)
  : M W unit :=
  if strict_not_zero (SiyuanResponse.code response) then
    m <- lift (JS.ToString (SiyuanResponse.msg response)) ;;
    throw (Error (failure ++ m))
  else ret tt.

(** [response.data[0].doOperations[0].id] *)
Definition first_operation_id (response : SiyuanResponse.t)
  : Result JSValue :=
  match index0 (SiyuanResponse.data response) with
  | Throw e => Throw e
  | Ok first =>
      match member first "doOperations" with
      | Throw e => Throw e
      | Ok operations =>
          match index0 operations with
          | Throw e => Throw e
          | Ok operation => member operation "id"
          end
      end
  end.

Definition getBlockKramdown (blockId : JSValue) : M W JSValue :=
  response <- request client "/api/block/getBlockKramdown"
                (JObj [("id", blockId)]) ;;
  lift (member (SiyuanResponse.data response) "kramdown").

Definition getBlockMarkdown (blockId : JSValue) : M W JSValue :=
  response <- request client "/api/export/exportMdContent"
                (JObj [("id", blockId)]) ;;
  lift (member (SiyuanResponse.data response) "content").

Definition updateBlock (blockId content : JSValue) : M W JSValue :=
  response <- request client "/api/block/updateBlock"
                (JObj [("id", blockId); ("dataType", JStr "markdown");
                       ("data", content)]) ;;
  check "Failed to update block: " response ;;;
  ret JUndefined.

Definition appendBlock (parentId content : JSValue) : M W JSValue :=
  response <- request client "/api/block/appendBlock"
                (JObj [("parentID", parentId); ("dataType", JStr "markdown");
                       ("data", content)]) ;;
  check "Failed to append block: " response ;;;
  lift (first_operation_id response).

Definition insertBlockBefore (previousId content : JSValue) : M W JSValue :=
  response <- request client "/api/block/insertBlock"
                (JObj [("previousID", previousId);
                       ("dataType", JStr "markdown"); ("data", content)]) ;;
  check "Failed to insert block: " response ;;;
  lift (first_operation_id response).

Definition insertBlockAfter (nextId content : JSValue) : M W JSValue :=
  response <- request client "/api/block/insertBlock"
                (JObj [("nextID", nextId); ("dataType", JStr "markdown");
                       ("data", content)]) ;;
  check "Failed to insert block: " response ;;;
  lift (first_operation_id response).

Definition deleteBlock (blockId : JSValue) : M W JSValue :=
  response <- request client "/api/block/deleteBlock"
                (JObj [("id", blockId)]) ;;
  check "Failed to delete block: " response ;;;
  ret JUndefined.

Definition moveBlock (blockId previousId parentId : JSValue)
  : M W JSValue :=
  response <- request client "/api/block/moveBlock"
                (JObj [("id", blockId); ("previousID", previousId);
                       ("parentID", parentId)]) ;;
  check "Failed to move block: " response ;;;
  ret JUndefined.

(** [response.data || []] *)
Definition getChildBlocks (blockId : JSValue) : M W JSValue :=
  response <- request client "/api/block/getChildBlocks"
                (JObj [("id", blockId)]) ;;
  ret (if JS.truthy (SiyuanResponse.data response)
       then SiyuanResponse.data response
       else JArr []).

(** [response.data || {}] *)
Definition getBlockAttrs (blockId : JSValue) : M W JSValue :=
  response <- request client "/api/attr/getBlockAttrs"
                (JObj [("id", blockId)]) ;;
  ret (if JS.truthy (SiyuanResponse.data response)
       then SiyuanResponse.data response
       else JObj []).

Definition setBlockAttrs (blockId attrs : JSValue) : M W JSValue :=
  response <- request client "/api/attr/setBlockAttrs"
                (JObj [("id", blockId); ("attrs", attrs)]) ;;
  check "Failed to set block attrs: " response ;;;
  ret JUndefined.

End Methods.

End BlockApi.

(** The block operations of a context whose facade is built on the class
    of api/block.ts. *)
Definition block_api_of {W} (client : SiyuanClient W) : SiyuanBlockApi W :=
  {| getBlockKramdown := BlockApi.getBlockKramdown client;
     insertBlockBefore := BlockApi.insertBlockBefore client;
     insertBlockAfter := BlockApi.insertBlockAfter client |}.

(** ** The other tool handlers *)

Module Facade.
(** The operations of [context.siyuan] that the handlers below call, by
    the name of the method; [ExecutionContext] above carries those of the
    handlers of the first part, and a value of this record stands for
    the rest of the same facade.  The answers of [getNotebookConf] and
    [createSnapshot] are objects, which the handlers spread. *)
Record t (W : Type) : Type := {
  updateBlock : JSValue -> JSValue -> M W JSValue;
  appendBlock : JSValue -> JSValue -> M W JSValue;
  moveBlock : JSValue -> JSValue -> JSValue -> M W JSValue;
  getChildBlocks : JSValue -> M W JSValue;
  getBlockAttrs : JSValue -> M W JSValue;
  setBlockAttrs : JSValue -> JSValue -> M W JSValue;
  search : JSValue -> M W JSValue;
  getRecentlyUpdatedDocuments : JSValue -> JSValue -> M W JSValue;
  getNotebookConf : JSValue -> M W JSObject;
  setNotebookConf : JSValue -> JSValue -> M W JSValue;
  createSnapshot : JSValue -> M W JSObject;
  getSnapshots : JSValue -> M W JSValue;
  getFileContent : JSValue -> M W JSValue;
  getDocumentTree : JSValue -> JSValue -> M W JSValue;
  moveDocumentsByIds : JSValue -> JSValue -> M W JSValue;
  moveDocumentsToNotebookRoot : JSValue -> JSValue -> M W JSValue
}.
Arguments updateBlock {W}.
Arguments appendBlock {W}.
Arguments moveBlock {W}.
Arguments getChildBlocks {W}.
Arguments getBlockAttrs {W}.
Arguments setBlockAttrs {W}.
Arguments search {W}.
Arguments getRecentlyUpdatedDocuments {W}.
Arguments getNotebookConf {W}.
Arguments setNotebookConf {W}.
Arguments createSnapshot {W}.
Arguments getSnapshots {W}.
Arguments getFileContent {W}.
Arguments getDocumentTree {W}.
Arguments moveDocumentsByIds {W}.
Arguments moveDocumentsToNotebookRoot {W}.
End Facade.

(** [v || d] *)
Definition or_default (v d : JSValue) : JSValue :=
  if JS.truthy v then v else d.

(** block.ts *)
Module UpdateBlockHandler.

Definition name : string := "update_block".

Definition execute {W} (facade : Facade.t W) (args : JSObject)
  (context : ExecutionContext W) : M W JSValue :=
  Facade.updateBlock facade (JS.get args "block_id") (JS.get args "content") ;;;
  ret (JObj [("success", JBool true); ("block_id", JS.get args "block_id")]).

End UpdateBlockHandler.

Module AppendBlockHandler.

Definition name : string := "append_block".

Definition execute {W} (facade : Facade.t W) (args : JSObject)
  (context : ExecutionContext W) : M W JSValue :=
  blockId <- Facade.appendBlock facade
               (JS.get args "parent_id") (JS.get args "content") ;;
  ret (JObj [("block_id", blockId)]).

End AppendBlockHandler.

Module MoveBlockHandler.

Definition name : string := "move_block".

Definition execute {W} (facade : Facade.t W) (args : JSObject)
  (context : ExecutionContext W) : M W JSValue :=
  if negb (JS.truthy (JS.get args "previous_id"))
     && negb (JS.truthy (JS.get args "parent_id")) then
    throw (Error "Must provide at least one of: previous_id or parent_id")
  else
    Facade.moveBlock facade (JS.get args "block_id")
      (JS.get args "previous_id") (JS.get args "parent_id") ;;;
    ret (JObj [("success", JBool true); ("block_id", JS.get args "block_id")]).

End MoveBlockHandler.

Module GetChildBlocksHandler.

Definition name : string := "get_child_blocks".

Definition execute {W} (facade : Facade.t W) (args : JSObject)
  (context : ExecutionContext W) : M W JSValue :=
  Facade.getChildBlocks facade (JS.get args "block_id").

End GetChildBlocksHandler.

Module GetBlockAttrsHandler.

Definition name : string := "get_block_attrs".

Definition execute {W} (facade : Facade.t W) (args : JSObject)
  (context : ExecutionContext W) : M W JSValue :=
  Facade.getBlockAttrs facade (JS.get args "block_id").

End GetBlockAttrsHandler.

Module SetBlockAttrsHandler.

Definition name : string := "set_block_attrs".

Definition execute {W} (facade : Facade.t W) (args : JSObject)
  (context : ExecutionContext W) : M W JSValue :=
  Facade.setBlockAttrs facade (JS.get args "block_id") (JS.get args "attrs") ;;;
  ret (JObj [("success", JBool true); ("block_id", JS.get args "block_id")]).

End SetBlockAttrsHandler.

(** search.ts *)
Module UnifiedSearchHandler.

Definition name : string := "unified_search".

Definition execute {W} (facade : Facade.t W) (args : JSObject)
  (context : ExecutionContext W) : M W JSValue :=
  Facade.search facade
    (JObj [("content", JS.get args "content");
           ("tag", JS.get args "tag");
           ("filename", JS.get args "filename");
           ("limit", or_default (JS.get args "limit") (JNum 10));
           ("notebook", JS.get args "notebook_id");
           ("types", JS.get args "types")]).

End UnifiedSearchHandler.

(** notebook.ts *)
Module GetRecentlyUpdatedDocumentsHandler.

Definition name : string := "get_recently_updated_documents".

Definition execute {W} (facade : Facade.t W) (args : JSObject)
  (context : ExecutionContext W) : M W JSValue :=
  Facade.getRecentlyUpdatedDocuments facade
    (or_default (JS.get args "limit") (JNum 10)) (JS.get args "notebook_id").

End GetRecentlyUpdatedDocumentsHandler.

Module SetDailyNoteFormatHandler.

Definition name : string := "set_daily_note_format".

(** [{ ...currentConf, dailyNoteSavePath: args.path_template }] is the
    configuration read with the one property defined anew. *)
Definition execute {W} (facade : Facade.t W) (args : JSObject)
  (context : ExecutionContext W) : M W JSValue :=
  currentConf <- Facade.getNotebookConf facade (JS.get args "notebook_id") ;;
  Facade.setNotebookConf facade (JS.get args "notebook_id")
    (JObj (JS.set_property currentConf "dailyNoteSavePath"
             (JS.get args "path_template"))) ;;;
  path_template <- lift (JS.ToString (JS.get args "path_template")) ;;
  ret (JStr ("Daily note format updated to: " ++ path_template)).

End SetDailyNoteFormatHandler.

(** snapshot.ts *)
Module CreateSnapshotHandler.

Definition name : string := "create_snapshot".

Definition execute {W} (facade : Facade.t W) (args : JSObject)
  (context : ExecutionContext W) : M W JSValue :=
  let memo := or_default (JS.get args "memo") (JStr "Auto snapshot") in
  result <- Facade.createSnapshot facade memo ;;
  memo_text <- lift (JS.ToString memo) ;;
  ret (JObj (JS.set_property result "message"
               (JStr ("Snapshot created successfully with memo: " ++ JS.dq
                      ++ memo_text ++ JS.dq)))).

End CreateSnapshotHandler.

Module ListSnapshotsHandler.

Definition name : string := "list_snapshots".

Definition execute {W} (facade : Facade.t W) (args : JSObject)
  (context : ExecutionContext W) : M W JSValue :=
  Facade.getSnapshots facade (or_default (JS.get args "page_number") (JNum 1)).

End ListSnapshotsHandler.

(** document.ts *)
Module GetDocumentTreeHandler.

Definition name : string := "get_document_tree".

Definition execute {W} (facade : Facade.t W) (args : JSObject)
  (context : ExecutionContext W) : M W JSValue :=
  Facade.getDocumentTree facade (JS.get args "id")
    (or_default (JS.get args "depth") (JNum 1)).

End GetDocumentTreeHandler.

Module GetDocumentContentHandler.

Definition name : string := "get_document_content".

(** [fullContent.split('\n')]: the lines of a text, one more than it has
    line feeds. *)
Fixpoint split_lines (s : string) : list string :=
  match s with
  | EmptyString => [""]
  | String c t =>
      if Ascii.eqb c "010" then "" :: split_lines t
      else
        match split_lines t with
        | line :: rest => String c line :: rest
        | [] => [String c ""]
        end
  end.

(** ToNumber, where it needs no conversion of a string: [null] is 0, a
    boolean 0 or 1.  [None] for [undefined] (not a number) and for the
    strings, arrays and objects, whose conversion is not modelled. *)
Definition to_number (v : JSValue) : option Z :=
  match v with
  | JNull => Some 0%Z
  | JBool true => Some 1%Z
  | JBool false => Some 0%Z
  | JNum n => Some n
  | _ => None
  end.

(** The text of a number or boolean in a template literal. *)
Definition show (v : JSValue) : option string :=
  match v with
  | JBool _ | JNum _ =>
      match JS.ToString v with
      | Ok text => Some text
      | Throw _ => None
      end
  | _ => None
  end.

(** [lines.slice(start, end)] with integer bounds: a negative bound
    counts from the end, and both are clamped to the array. *)
Definition slice {A} (start finish : Z) (l : list A) : list A :=
  let len := Z.of_nat (List.length l) in
  let clamp (i : Z) : Z :=
    if (i <? 0)%Z then Z.max (len + i) 0 else Z.min i len in
  firstn (Z.to_nat (clamp finish - clamp start))
    (skipn (Z.to_nat (clamp start)) l).

(** What [execute] returns for the content of the document, by its
    [offset] and [limit] arguments; [None] when one of them is a string,
    an array or an object, the arithmetic on which is not modelled. *)
Definition page (offset limit : JSValue) (fullContent : string)
  : option string :=
  let lines := split_lines fullContent in
  let totalLines := Z.of_nat (List.length lines) in
  let info :=
    "--- Document Info ---" ++ JS.nl
    ++ "Total Lines: " ++ JS.Number_toString totalLines ++ JS.nl in
  match offset, limit with
  | JUndefined, JUndefined =>
      Some (info ++ "--- End Info ---" ++ JS.nl ++ JS.nl ++ fullContent)
  | _, _ =>
      let startLine :=
        match offset with
        | JUndefined | JNull => JNum 0
        | _ => offset
        end in
      match to_number startLine, show startLine with
      | Some start, Some start_text =>
          if (totalLines <=? start)%Z then
            match to_number (or_default limit (JNum 0)) with
            | Some m =>
                Some (info ++ "Requested Range: " ++ start_text ++ "-"
                      ++ JS.Number_toString (start + m) ++ JS.nl
                      ++ "Status: Out of range" ++ JS.nl
                      ++ "--- End Info ---" ++ JS.nl)
            | None => None
            end
          else
            match (match limit with
                   | JUndefined => Some totalLines
                   | _ => option_map (Z.add start) (to_number limit)
                   end) with
            | Some endLine =>
                let actualEndLine := Z.min endLine totalLines in
                Some (info ++ "Current Range: " ++ start_text ++ "-"
                      ++ JS.Number_toString (actualEndLine - 1)
                      ++ " (showing "
                      ++ JS.Number_toString (actualEndLine - start)
                      ++ " lines)" ++ JS.nl
                      ++ "--- End Info ---" ++ JS.nl ++ JS.nl
                      ++ JS.join JS.nl (slice start actualEndLine lines))
            | None => None
            end
      | _, _ => None
      end
  end.

Section Execute.

Context {W : Type}.

Variable facade : Facade.t W.

(** The outcome for an [offset] or [limit] that is a string, an array or
    an object: not modelled, and nothing below depends on it. *)
Variable unmodelled : JSValue -> JSValue -> string -> Result JSValue.

Definition execute (args : JSObject) (context : ExecutionContext W)
  : M W JSValue :=
  fullContent <- Facade.getFileContent facade (JS.get args "document_id") ;;
  match fullContent with
  | JStr content =>
      match page (JS.get args "offset") (JS.get args "limit") content with
      | Some text => ret (JStr text)
      | None =>
          lift (unmodelled (JS.get args "offset") (JS.get args "limit")
                  content)
      end
  | JUndefined =>
      throw (TypeError "Cannot read properties of undefined (reading 'split')")
  | JNull =>
      throw (TypeError "Cannot read properties of null (reading 'split')")
  | _ => throw (TypeError "fullContent.split is not a function")
  end.

End Execute.

End GetDocumentContentHandler.

Module MoveDocumentsHandler.

Definition name : string := "move_documents".

(** [args.from_ids.startsWith('[')] *)
Definition starts_with_bracket (s : string) : bool :=
  match s with
  | String c _ => Ascii.eqb c "["
  | EmptyString => false
  end.

(** The ids to move: an array as it is; a string that starts with a
    bracket parsed as JSON; any other string as one id.  [None] where
    [JS.JSON_parse] has no answer for the text after the bracket: the
    text is then either malformed, and taken as one id by the [catch], or
    JSON outside of what [JS.JSON_parse] reads, and parsed to an array
    that [JSValue] cannot hold.  (A text that starts with a bracket
    parses to an array or not at all.) *)
Definition fromIds_of (from_ids : JSValue)
  : option (Result (list JSValue)) :=
  match from_ids with
  | JArr l => Some (Ok l)
  | JStr s =>
      if starts_with_bracket s then
        match JS.JSON_parse s with
        | Some (JArr l) => Some (Ok l)
        | _ => None
        end
      else Some (Ok [JStr s])
  | _ => Some (Throw (Error "from_ids must be a string or array of strings"))
  end.

Section Execute.

Context {W : Type}.

Variable facade : Facade.t W.

(** The outcome for a [from_ids] text on which [fromIds_of] has no
    answer: not modelled, and nothing below depends on it. *)
Variable unmodelled : JSObject -> M W JSValue.

Definition execute (args : JSObject) (context : ExecutionContext W)
  : M W JSValue :=
  match fromIds_of (JS.get args "from_ids") with
  | None => unmodelled args
  | Some outcome =>
  fromIds <- lift outcome ;;
  let hasParentId := JS.truthy (JS.get args "to_parent_id") in
  let hasNotebookRoot := JS.truthy (JS.get args "to_notebook_root") in
  if negb hasParentId && negb hasNotebookRoot then
    throw (Error "Must provide exactly one of: to_parent_id (for nested placement) or to_notebook_root (for root placement)")
  else if hasParentId && hasNotebookRoot then
    throw (Error "Cannot provide both to_parent_id and to_notebook_root - choose only one target location")
  else
    (if hasParentId
     then Facade.moveDocumentsByIds facade
            (JArr fromIds) (JS.get args "to_parent_id")
     else Facade.moveDocumentsToNotebookRoot facade
            (JArr fromIds) (JS.get args "to_notebook_root")) ;;;
    ret (JObj [("success", JBool true);
               ("moved_count", JNum (Z.of_nat (List.length fromIds)));
               ("from_ids", JArr fromIds);
               ("to_parent_id", JS.get args "to_parent_id");
               ("to_notebook_root", JS.get args "to_notebook_root")])
  end.

End Execute.

End MoveDocumentsHandler.

(** The number of line feeds of a text. *)
Fixpoint line_feeds (s : string) : nat :=
  match s with
  | EmptyString => 0
  | String c t => (if Ascii.eqb c "010" then 1 else 0) + line_feeds t
  end.

(** How SQL reads a string literal after its opening quote: two quotes in
    a row stand for one quote of the text, a single one ends the
    literal.  The text denoted and what follows the literal; [None] when
    the literal is not ended. *)
Fixpoint read_sql_literal (s : string) : option (string * string) :=
  match s with
  | EmptyString => None
  | String c t =>
      if Ascii.eqb c "'" then
        match t with
        | String c' t' =>
            if Ascii.eqb c' "'"
            then JS.prepend "'" (read_sql_literal t')
            else Some ("", t)
        | EmptyString => Some ("", t)
        end
      else JS.prepend (String c "") (read_sql_literal t)
  end.

(** Whether a text has no single quote. *)
Fixpoint quote_free (s : string) : bool :=
  match s with
  | EmptyString => true
  | String c t => negb (Ascii.eqb c "'") && quote_free t
  end.

(** ** A sample workspace *)

(** A workspace that records the operations it receives, for concrete
    runs of the server. *)
Definition sample_block_id : JSValue := JStr "20240101120000-abc1234".

Definition sample_rows : list JSValue :=
  [ JObj [("id", JStr "20240101120000-abc1234"); ("type", JStr "p");
          ("content", JStr "first match"); ("box", JStr "nb1")];
    JObj [("id", JStr "20240101120001-def5678"); ("type", JStr "h");
          ("content", JStr "second match"); ("box", JStr "nb1")] ].

Definition record_call (op : string) (answer : JSValue)
  : M (list string) JSValue :=
  fun s => (Ok answer, mkState (logs s) (world s ++ [op])%list).

Definition sample_siyuan : SiyuanTools (list string) :=
  {| block :=
       {| getBlockKramdown := fun _ =>
            record_call "getBlockKramdown" (JStr "A paragraph");
          insertBlockBefore := fun _ _ =>
            record_call "insertBlockBefore" sample_block_id;
          insertBlockAfter := fun _ _ =>
            record_call "insertBlockAfter" sample_block_id |};
     search :=
       {| query := fun sql s =>
            (Ok sample_rows, mkState (logs s) (world s ++ [sql])%list) |} |}.

(** The handler of the spec's scenario: [execute] returns [args.value]. *)
Definition echo : ToolHandler (list string) :=
  {| name := "echo"; description := "Returns its value argument";
     inputSchema := JObj [("type", JStr "object")];
     execute := fun args _ => ret (JS.get args "value") |}.

(** A handler that fails the way [InsertBlockHandler] does. *)
Definition failing : ToolHandler (list string) :=
  {| name := "failing"; description := "Always fails";
     inputSchema := JObj [("type", JStr "object")];
     execute := fun _ _ => throw (Error "need exactly one of A or B") |}.

Definition sample_handlers : list (ToolHandler (list string)) :=
  [ echo; failing; GetBlockHandler.handler; InsertBlockHandler.handler;
    FindBlockInDocumentHandler.handler (fun _ => false) ].

Definition sample_context : ExecutionContext (list string) :=
  {| siyuan := sample_siyuan;
     config := {| baseUrl := "http://127.0.0.1:6806"; token := "t" |};
     logger := ConsoleLogger |}.

Definition sample_server : SiyuanMCPServer (list string) :=
  {| registry := sample_handlers; context := sample_context |}.

Definition initial : State (list string) := mkState [] [].

(** ** A sample client and facade *)

Definition inserted_answer : SiyuanResponse.t :=
  {| SiyuanResponse.code := JNum 0;
     SiyuanResponse.msg := JStr "";
     SiyuanResponse.data :=
       JArr [JObj [("doOperations",
                    JArr [JObj [("action", JStr "insert");
                                ("id", sample_block_id)]])]] |}.

Definition refused_answer : SiyuanResponse.t :=
  {| SiyuanResponse.code := JNum (-1);
     SiyuanResponse.msg := JStr "block not found";
     SiyuanResponse.data := JNull |}.

(** A client that records the endpoint and gives the same answer to
    every request. *)
Definition answering (answer : SiyuanResponse.t) : SiyuanClient (list string) :=
  {| request := fun endpoint _ s =>
       (Ok answer, mkState (logs s) (world s ++ [endpoint])%list) |}.

Definition sample_document : string :=
  "alpha" ++ JS.nl ++ "beta" ++ JS.nl ++ "gamma".

Definition sample_conf : JSObject :=
  [("name", JStr "Notes"); ("dailyNoteSavePath", JStr "/old");
   ("closed", JBool false)].

(** A facade whose block operations are those of api/block.ts over the
    given client; the other operations record their name (or the
    configuration written) and answer fixed values. *)
Definition sample_facade (client : SiyuanClient (list string))
  : Facade.t (list string) :=
  {| Facade.updateBlock := BlockApi.updateBlock client;
     Facade.appendBlock := BlockApi.appendBlock client;
     Facade.moveBlock := BlockApi.moveBlock client;
     Facade.getChildBlocks := BlockApi.getChildBlocks client;
     Facade.getBlockAttrs := BlockApi.getBlockAttrs client;
     Facade.setBlockAttrs := BlockApi.setBlockAttrs client;
     Facade.search := fun _ => record_call "search" (JArr sample_rows);
     Facade.getRecentlyUpdatedDocuments := fun _ _ =>
       record_call "getRecentlyUpdatedDocuments" (JArr sample_rows);
     Facade.getNotebookConf := fun _ s =>
       (Ok sample_conf, mkState (logs s) (world s ++ ["getNotebookConf"])%list);
     Facade.setNotebookConf := fun _ conf s =>
       (Ok JUndefined,
        mkState (logs s)
          (world s ++ [String.append "setNotebookConf " (result_text conf)])%list);
     Facade.createSnapshot := fun memo s =>
       (Ok [("success", JBool true); ("memo", memo);
            ("message", JStr "from the workspace")],
        mkState (logs s) (world s ++ ["createSnapshot"])%list);
     Facade.getSnapshots := fun _ => record_call "getSnapshots" (JObj []);
     Facade.getFileContent := fun _ =>
       record_call "getFileContent" (JStr sample_document);
     Facade.getDocumentTree := fun _ _ =>
       record_call "getDocumentTree" (JArr []);
     Facade.moveDocumentsByIds := fun _ _ =>
       record_call "moveDocumentsByIds" JUndefined;
     Facade.moveDocumentsToNotebookRoot := fun _ _ =>
       record_call "moveDocumentsToNotebookRoot" JUndefined |}.

(** A context whose block operations go through the given client. *)
Definition client_context (client : SiyuanClient (list string))
  : ExecutionContext (list string) :=
  {| siyuan := {| block := block_api_of client; search := search sample_siyuan |};
     config := config sample_context;
     logger := ConsoleLogger |}.






(** The sample facade, with the given answer for the content of a
    document. *)
Definition answering_content (answer : JSValue) : Facade.t (list string) :=
  let facade := sample_facade (answering inserted_answer) in
  {| Facade.updateBlock := Facade.updateBlock facade;
     Facade.appendBlock := Facade.appendBlock facade;
     Facade.moveBlock := Facade.moveBlock facade;
     Facade.getChildBlocks := Facade.getChildBlocks facade;
     Facade.getBlockAttrs := Facade.getBlockAttrs facade;
     Facade.setBlockAttrs := Facade.setBlockAttrs facade;
     Facade.search := Facade.search facade;
     Facade.getRecentlyUpdatedDocuments :=
       Facade.getRecentlyUpdatedDocuments facade;
     Facade.getNotebookConf := Facade.getNotebookConf facade;
     Facade.setNotebookConf := Facade.setNotebookConf facade;
     Facade.createSnapshot := Facade.createSnapshot facade;
     Facade.getSnapshots := Facade.getSnapshots facade;
     Facade.getFileContent := fun _ => record_call "getFileContent" answer;
     Facade.getDocumentTree := Facade.getDocumentTree facade;
     Facade.moveDocumentsByIds := Facade.moveDocumentsByIds facade;
     Facade.moveDocumentsToNotebookRoot :=
       Facade.moveDocumentsToNotebookRoot facade |}.

(** A handler that throws a value that is not an [Error]. *)
Definition throwing_value (v : JSValue) : ToolHandler (list string) :=
  {| name := "throwing"; description := "Throws its value";
     inputSchema := JObj [("type", JStr "object")];
     execute := fun _ _ => throw (NonError v) |}.


(* ================================================================== *)
(** * Properties *)
(* ================================================================== *)

(** ** Strings *)

Lemma append_assoc (a b c : string) : (a ++ b) ++ c = a ++ (b ++ c).
Proof.
  induction a as [|x a IH]; simpl; [reflexivity | now rewrite IH].
Qed.

Lemma append_nil_r (a : string) : a ++ "" = a.
Proof.
  induction a as [|x a IH]; simpl; [reflexivity | now rewrite IH].
Qed.

Lemma length_append (a b : string) :
  String.length (a ++ b) = String.length a + String.length b.
Proof.
  induction a as [|x a IH]; simpl; [reflexivity | now rewrite IH].
Qed.

#[local] Arguments String.append : simpl never.

(** ** JSON: writing and reading back *)

Section JSONFacts.

Import JS.

Lemma head_append a b c : head a = Some c -> head (a ++ b) = Some c.
Proof. destruct a; [discriminate | exact (fun H => H)]. Qed.

Lemma all_ws_append a b : all_ws (a ++ b) = all_ws a && all_ws b.
Proof.
  induction a as [|c a IH]; [reflexivity|].
  change (String c a ++ b) with (String c (a ++ b)). simpl.
  now rewrite IH, andb_assoc.
Qed.

Lemma skip_ws_all_ws w t : all_ws w = true -> skip_ws (w ++ t) = skip_ws t.
Proof.
  induction w as [|c w IH]; [reflexivity|].
  change (String c w ++ t) with (String c (w ++ t)). simpl.
  intros [Hc Hw]%andb_prop. rewrite Hc. now apply IH.
Qed.

Lemma skip_ws_head t c : head t = Some c -> is_ws c = false -> skip_ws t = t.
Proof.
  destruct t as [|c' t]; [discriminate|]. intros [= ->] Hc. simpl.
  now rewrite Hc.
Qed.

Lemma strip_prefix_append p t : strip_prefix p (p ++ t) = Some t.
Proof.
  induction p as [|c p IH]; [now destruct t|].
  change (String c p ++ t) with (String c (p ++ t)). simpl.
  now rewrite Ascii.eqb_refl.
Qed.

Lemma strip_prefix_other c p t c' :
  head t = Some c' -> Ascii.eqb c' c = false ->
  strip_prefix (String c p) t = None.
Proof.
  destruct t as [|x t]; [discriminate|]. intros [= ->] Hc. simpl.
  now rewrite Hc.
Qed.

Lemma value_start_spec c :
  value_start c = true ->
  is_ws c = false /\ Ascii.eqb c "]" = false /\ Ascii.eqb c "}" = false.
Proof.
  destruct c as [[] [] [] [] [] [] [] []]; try discriminate; now repeat split.
Qed.


(** *** Strings *)

Lemma parse_string_chars_escape_char c t :
  parse_string_chars (escape_char c ++ t)
  = prepend (String c "") (parse_string_chars t).
Proof.
  destruct c as [[] [] [] [] [] [] [] []]; reflexivity.
Qed.

Lemma parse_string_chars_escape str rest :
  parse_string_chars (escape str ++ dq ++ rest) = Some (str, rest).
Proof.
  induction str as [|c str IH].
  - reflexivity.
  - simpl escape. rewrite append_assoc, parse_string_chars_escape_char, IH.
    reflexivity.
Qed.

(** *** Numbers *)

Lemma span_digits_end rest :
  ends_number rest = true -> span_digits rest = ("", rest).
Proof.
  destruct rest as [|c r]; [reflexivity|]. simpl.
  intros H. apply negb_true_iff in H. now rewrite H.
Qed.

Lemma span_digits_uint d rest :
  ends_number rest = true ->
  span_digits (NilEmpty.string_of_uint d ++ rest)
  = (NilEmpty.string_of_uint d, rest).
Proof.
  intros Hrest.
  induction d as [|d IH|d IH|d IH|d IH|d IH|d IH|d IH|d IH|d IH|d IH];
    [now apply span_digits_end | ..];
    cbn [NilEmpty.string_of_uint];
    match goal with |- context [String ?c ?a ++ ?b] =>
      change (String c a ++ b) with (String c (a ++ b)) end;
    cbn [span_digits]; rewrite IH; reflexivity.
Qed.

Lemma nzhead_not_D0 d d' : Decimal.nzhead d <> Decimal.D0 d'.
Proof.
  induction d; simpl; try discriminate. exact IHd.
Qed.

Lemma to_uint_not_D0 p d' : Pos.to_uint p <> Decimal.D0 d'.
Proof.
  intros H.
  pose proof (DecimalPos.Unsigned.to_of (Pos.to_uint p)) as Hnorm.
  rewrite DecimalPos.Unsigned.of_to in Hnorm. simpl in Hnorm.
  rewrite H in Hnorm. unfold Decimal.unorm in Hnorm.
  cbn [Decimal.nzhead] in Hnorm.
  destruct (Decimal.nzhead d') eqn:Hd'; try discriminate Hnorm.
  - injection Hnorm as ->.
    exact (DecimalPos.Unsigned.to_uint_nonzero p H).
  - exact (nzhead_not_D0 d' u Hd').
Qed.

Lemma parse_digits_uint d rest :
  ends_number rest = true ->
  d <> Decimal.Nil -> (forall d', d <> Decimal.D0 d') ->
  parse_digits (NilEmpty.string_of_uint d ++ rest) = Some (Z.of_uint d, rest).
Proof.
  intros Hrest Hnil Hzero. unfold parse_digits.
  rewrite (span_digits_uint _ _ Hrest).
  pose proof (NilEmpty.usu d) as Husu.
  destruct d; try (now rewrite Husu). now destruct (Hzero d).
Qed.

Lemma Z_of_to_uint p : Z.of_uint (Pos.to_uint p) = Zpos p.
Proof.
  unfold Z.of_uint. now rewrite DecimalPos.Unsigned.of_to.
Qed.

Lemma parse_digits_positive p rest :
  ends_number rest = true ->
  parse_digits (NilEmpty.string_of_uint (Pos.to_uint p) ++ rest)
  = Some (Zpos p, rest).
Proof.
  intros Hrest. rewrite parse_digits_uint; auto.
  - now rewrite Z_of_to_uint.
  - apply DecimalPos.Unsigned.to_uint_nonnil.
  - intros d'. apply to_uint_not_D0.
Qed.

Lemma head_uint d :
  d <> Decimal.Nil ->
  exists c, head (NilEmpty.string_of_uint d) = Some c /\ is_digit c = true.
Proof.
  destruct d; [congruence | ..]; intros _; eexists; split; reflexivity.
Qed.

Lemma parse_number_digit c t :
  is_digit c = true ->
  parse_number (String c t) =
  match parse_digits (String c t) with
  | Some (n, rest) => Some (JNum n, rest)
  | None => None
  end.
Proof.
  destruct c as [[] [] [] [] [] [] [] []]; try discriminate; reflexivity.
Qed.

Lemma parse_number_toString n rest :
  ends_number rest = true ->
  parse_number (Number_toString n ++ rest) = Some (JNum n, rest).
Proof.
  intros Hrest. destruct n as [|p|p]; unfold Number_toString.
  - change ("0" ++ rest) with (String "0" rest).
    unfold parse_number, parse_digits. cbn [span_digits is_digit].
    simpl. rewrite (span_digits_end _ Hrest). reflexivity.
  - destruct (head_uint (Pos.to_uint p)) as (c & Hc & Hdigit);
      [apply DecimalPos.Unsigned.to_uint_nonnil|].
    pose proof (parse_digits_positive p rest Hrest) as Hp.
    destruct (NilEmpty.string_of_uint (Pos.to_uint p)) as [|c' ds];
      [discriminate|].
    injection Hc as ->.
    change (String c ds ++ rest) with (String c (ds ++ rest)) in *.
    now rewrite (parse_number_digit _ _ Hdigit), Hp.
  - rewrite append_assoc.
    change ("-" ++ ?x) with (String "-" x).
    unfold parse_number.
    now rewrite (parse_digits_positive p rest Hrest).
Qed.

Lemma parse_value_number fuel c t :
  is_digit c = true \/ c = "-"%char ->
  parse_value (S fuel) (String c t) = parse_number (String c t).
Proof.
  intros [H | ->]; [|reflexivity].
  destruct c as [[] [] [] [] [] [] [] []]; try discriminate; reflexivity.
Qed.


(** *** Values *)

Lemma JSValue_nested_ind (P : JSValue -> Prop) :
  P JUndefined -> P JNull -> (forall b, P (JBool b)) ->
  (forall n, P (JNum n)) -> (forall str, P (JStr str)) ->
  (forall l, Forall P l -> P (JArr l)) ->
  (forall o, Forall (fun kv => P (snd kv)) o -> P (JObj o)) ->
  forall v, P v.
Proof.
  intros Hu Hn Hb Hz Hs Ha Ho.
  refine (fix IH (v : JSValue) : P v :=
            match v with
            | JUndefined => Hu
            | JNull => Hn
            | JBool b => Hb b
            | JNum n => Hz n
            | JStr str => Hs str
            | JArr l =>
                Ha l ((fix elements (l : list JSValue) : Forall P l :=
                         match l with
                         | [] => Forall_nil _
                         | x :: rest =>
                             Forall_cons x (IH x) (elements rest)
                         end) l)
            | JObj o =>
                Ho o ((fix members (o : list (string * JSValue))
                         : Forall (fun kv => P (snd kv)) o :=
                         match o with
                         | [] => Forall_nil _
                         | kv :: rest =>
                             Forall_cons kv (IH (snd kv)) (members rest)
                         end) o)
            end).
Qed.

Lemma Serialize_JArr indent l :
  SerializeJSONProperty indent (JArr l) =
  match l with
  | [] => Some "[]"
  | _ :: _ =>
      Some ("[" ++ nl ++ (indent ++ gap)
              ++ join ("," ++ nl ++ (indent ++ gap))
                   (map (element_text (indent ++ gap)) l)
              ++ nl ++ indent ++ "]")
  end.
Proof. destruct l; reflexivity. Qed.

Lemma Serialize_JObj indent o :
  SerializeJSONProperty indent (JObj o) =
  match filter_map (member_text (indent ++ gap)) o with
  | [] => Some "{}"
  | _ :: _ =>
      Some ("{" ++ nl ++ (indent ++ gap)
              ++ join ("," ++ nl ++ (indent ++ gap))
                   (filter_map (member_text (indent ++ gap)) o)
              ++ nl ++ indent ++ "}")
  end.
Proof. reflexivity. Qed.

Lemma parse_value_string fuel t :
  parse_value (S fuel) (String dquote t) =
  match parse_string_chars t with
  | Some (str, rest) => Some (JStr str, rest)
  | None => None
  end.
Proof. reflexivity. Qed.

Lemma parse_value_array fuel t :
  parse_value (S fuel) (String "[" t) =
  match strip_prefix "]" (skip_ws t) with
  | Some rest => Some (JArr [], rest)
  | None =>
      match parse_elements fuel (skip_ws t) with
      | Some (l, rest) => Some (JArr l, rest)
      | None => None
      end
  end.
Proof. reflexivity. Qed.

Lemma parse_value_object fuel t :
  parse_value (S fuel) (String "{" t) =
  match strip_prefix "}" (skip_ws t) with
  | Some rest => Some (JObj [], rest)
  | None =>
      match parse_members fuel (skip_ws t) with
      | Some (m, rest) => Some (JObj (make_object m), rest)
      | None => None
      end
  end.
Proof. reflexivity. Qed.

Lemma parse_elements_step fuel s :
  parse_elements (S fuel) s =
  match parse_value fuel s with
  | None => None
  | Some (v, r) =>
      match strip_prefix "," (skip_ws r) with
      | Some r' =>
          match parse_elements fuel (skip_ws r') with
          | Some (l, rest) => Some (v :: l, rest)
          | None => None
          end
      | None =>
          match strip_prefix "]" (skip_ws r) with
          | Some rest => Some ([v], rest)
          | None => None
          end
      end
  end.
Proof. reflexivity. Qed.

Lemma parse_members_step fuel t :
  parse_members (S fuel) (String dquote t) =
  match parse_string_chars t with
  | None => None
  | Some (k, r) =>
      match strip_prefix ":" (skip_ws r) with
      | None => None
      | Some r1 =>
          match parse_value fuel (skip_ws r1) with
          | None => None
          | Some (v, r2) =>
              match strip_prefix "," (skip_ws r2) with
              | Some r3 =>
                  match parse_members fuel (skip_ws r3) with
                  | Some (m, rest) => Some ((k, v) :: m, rest)
                  | None => None
                  end
              | None =>
                  match strip_prefix "}" (skip_ws r2) with
                  | Some rest => Some ([(k, v)], rest)
                  | None => None
                  end
              end
          end
      end
  end.
Proof. reflexivity. Qed.


Lemma reads_back_head v t rest :
  reads_back v t ->
  skip_ws (t ++ rest) = t ++ rest
  /\ strip_prefix "]" (t ++ rest) = None
  /\ strip_prefix "}" (t ++ rest) = None.
Proof.
  intros ((c & Hc & Hstart) & _).
  apply value_start_spec in Hstart as (Hws & Hb & Hc').
  pose proof (head_append t rest c Hc) as Hhead.
  repeat split.
  - now apply skip_ws_head with c.
  - now apply strip_prefix_other with c.
  - now apply strip_prefix_other with c.
Qed.

Lemma join_cons2 sep a b l :
  join sep (a :: b :: l) = a ++ sep ++ join sep (b :: l).
Proof. reflexivity. Qed.

(** The elements of a non-empty array, as [SerializeJSONProperty] lays
    them out, up to the closing bracket. *)
Lemma parse_elements_join (text : JSValue -> string) indent' indent :
  all_ws indent' = true -> all_ws indent = true ->
  forall l, l <> [] -> Forall (fun x => reads_back x (text x)) l ->
  forall fuel rest,
    list_sum (map (fun x => S (weight x)) l) <= fuel ->
    parse_elements fuel
      (join ("," ++ nl ++ indent') (map text l)
         ++ nl ++ indent ++ "]" ++ rest)
    = Some (l, rest).
Proof.
  intros Hi' Hi.
  induction l as [|x l IH]; [congruence|]. intros _ Hall fuel rest Hfuel.
  inversion Hall as [|? ? Hx Hl]; subst.
  destruct fuel as [|fuel]; [simpl in Hfuel; lia|].
  simpl in Hfuel. rewrite parse_elements_step.
  destruct Hx as (_ & _ & Hparse).
  destruct l as [|y l].
  - cbn [map join].
    rewrite Hparse; [|lia|reflexivity].
    rewrite <- append_assoc, skip_ws_all_ws
      by (rewrite all_ws_append, Hi; reflexivity).
    reflexivity.
  - cbn [map]. rewrite join_cons2, !append_assoc.
    rewrite Hparse; [|lia|reflexivity].
    rewrite (skip_ws_head ("," ++ _) ",") by reflexivity.
    rewrite strip_prefix_append.
    rewrite <- (append_assoc nl indent'), skip_ws_all_ws
      by (rewrite all_ws_append, Hi'; reflexivity).
    assert (Hy : reads_back y (text y)) by now inversion Hl.
    assert (Hskip : forall tail,
               skip_ws (join ("," ++ nl ++ indent') (text y :: map text l)
                          ++ tail)
               = join ("," ++ nl ++ indent') (text y :: map text l) ++ tail).
    { intros tail. destruct l as [|z l].
      - cbn [map join]. apply (reads_back_head y _ tail Hy).
      - cbn [map]. rewrite join_cons2, !append_assoc.
        apply (reads_back_head y _ _ Hy). }
    rewrite Hskip.
    change (text y :: map text l) with (map text (y :: l)).
    rewrite IH; [reflexivity | discriminate | exact Hl |].
    simpl. simpl in Hfuel. lia.
Qed.


(** The properties of a non-empty object, up to the closing brace. *)
Lemma parse_members_join (text : JSValue -> string) indent' indent :
  all_ws indent' = true -> all_ws indent = true ->
  forall o, o <> [] ->
  Forall (fun kv => reads_back (snd kv) (text (snd kv))) o ->
  forall fuel rest,
    list_sum (map (fun kv => S (weight (snd kv))) o) <= fuel ->
    parse_members fuel
      (join ("," ++ nl ++ indent')
         (map (fun kv => QuoteJSONString (fst kv) ++ ": " ++ text (snd kv)) o)
         ++ nl ++ indent ++ "}" ++ rest)
    = Some (o, rest).
Proof.
  intros Hi' Hi.
  induction o as [|[k x] o IH]; [congruence|]. intros _ Hall fuel rest Hfuel.
  inversion Hall as [|? ? Hx Ho]; subst. simpl in Hx.
  destruct fuel as [|fuel]; [simpl in Hfuel; lia|].
  simpl in Hfuel.
  pose proof Hx as (_ & _ & Hparse).
  assert (Hstep : forall tail, ends_number tail = true ->
            parse_members (S fuel)
              ((QuoteJSONString k ++ ": " ++ text x) ++ tail) =
            match strip_prefix "," (skip_ws tail) with
            | Some r3 =>
                match parse_members fuel (skip_ws r3) with
                | Some (m, rest) => Some ((k, x) :: m, rest)
                | None => None
                end
            | None =>
                match strip_prefix "}" (skip_ws tail) with
                | Some rest => Some ([(k, x)], rest)
                | None => None
                end
            end).
  { intros tail Htail. unfold QuoteJSONString. rewrite !append_assoc.
    change (dq ++ ?t) with (String dquote t) at 1.
    rewrite parse_members_step, parse_string_chars_escape.
    change (": " ++ ?t) with (":" ++ " " ++ t).
    rewrite (skip_ws_head (":" ++ _) ":") by reflexivity.
    rewrite strip_prefix_append, (skip_ws_all_ws " ") by reflexivity.
    rewrite (proj1 (reads_back_head x _ tail Hx)).
    rewrite Hparse; [reflexivity | lia | exact Htail]. }
  destruct o as [|[k' y] o].
  - cbn [map join fst snd]. rewrite Hstep by reflexivity.
    rewrite <- append_assoc, skip_ws_all_ws
      by (rewrite all_ws_append, Hi; reflexivity).
    reflexivity.
  - set (line := fun kv : string * JSValue =>
                   QuoteJSONString (fst kv) ++ ": " ++ text (snd kv)).
    cbn [map]. rewrite join_cons2.
    set (J := join ("," ++ nl ++ indent') (line (k', y) :: map line o)).
    unfold line at 1. cbn [fst snd].
    rewrite (append_assoc (QuoteJSONString k ++ ": " ++ text x)).
    rewrite (append_assoc ("," ++ nl ++ indent') J).
    rewrite (append_assoc "," (nl ++ indent')).
    rewrite Hstep by reflexivity.
    rewrite (skip_ws_head ("," ++ _) ",") by reflexivity.
    rewrite strip_prefix_append.
    rewrite skip_ws_all_ws by (rewrite all_ws_append, Hi'; reflexivity).
    rewrite (skip_ws_head (J ++ _) dquote);
      [|unfold J; destruct o; reflexivity|reflexivity].
    unfold J. change (line (k', y) :: map line o) with (map line ((k', y) :: o)).
    rewrite IH; [reflexivity | discriminate | exact Ho |].
    simpl. simpl in Hfuel. lia.
Qed.


(** *** Objects with distinct names *)

Lemma set_property_fresh o k v :
  existsb (String.eqb k) (map fst o) = false ->
  set_property o k v = (o ++ [(k, v)])%list.
Proof.
  induction o as [|[k' v'] o IH]; [reflexivity|]. simpl.
  intros [Hk Ho]%orb_false_elim. rewrite String.eqb_sym, Hk.
  now rewrite IH.
Qed.

Lemma distinct_snoc keys k :
  distinct (keys ++ [k])%list = true ->
  distinct keys = true /\ existsb (String.eqb k) keys = false.
Proof.
  induction keys as [|k' keys IH]; [now split|]. simpl.
  intros [Hk' Hd]%andb_prop. destruct (IH Hd) as [Hkeys Hk].
  rewrite existsb_app, negb_true_iff in Hk'.
  apply orb_false_elim in Hk' as [Hin Hlast]. simpl in Hlast.
  apply orb_false_elim in Hlast as [Hlast _].
  rewrite Hin, Hkeys, Hk, String.eqb_sym, Hlast. now split.
Qed.

Lemma fold_set_property o : forall acc,
  distinct (map fst (acc ++ o)%list) = true ->
  fold_left (fun o kv => set_property o (fst kv) (snd kv)) o acc
  = (acc ++ o)%list.
Proof.
  induction o as [|[k v] o IH]; intros acc Hd; simpl.
  - now rewrite List.app_nil_r.
  - assert (Hd' : distinct (map fst ((acc ++ [(k, v)]) ++ o)%list) = true)
      by now rewrite <- List.app_assoc.
    rewrite set_property_fresh, (IH _ Hd'), <- List.app_assoc; [reflexivity|].
    clear IH Hd'. rewrite map_app in Hd. simpl in Hd.
    induction (map fst acc) as [|a keys IHk]; [reflexivity|].
    simpl in Hd. apply andb_prop in Hd as [Ha Hd].
    rewrite negb_true_iff, existsb_app in Ha.
    apply orb_false_elim in Ha as [_ Ha]. simpl in Ha.
    apply orb_false_elim in Ha as [Ha _].
    simpl. rewrite String.eqb_sym, Ha. now apply IHk.
Qed.

Lemma make_object_distinct o :
  distinct (map fst o) = true -> make_object o = o.
Proof.
  intros Hd. unfold make_object. now rewrite (fold_set_property o []).
Qed.

(** *** Every JSON value is read back *)

Lemma element_text_Some indent v :
  v <> JUndefined ->
  SerializeJSONProperty indent v = Some (element_text indent v).
Proof.
  intros Hv. unfold element_text.
  destruct v as [| |[|]|n|str|l|o]; try reflexivity; try congruence.
  - rewrite Serialize_JArr. now destruct l.
  - rewrite Serialize_JObj. now destruct (filter_map _ o).
Qed.

Lemma is_json_defined v : is_json v = true -> v <> JUndefined.
Proof. now destruct v. Qed.

Lemma filter_map_member_text indent o :
  forallb (fun kv => is_json (snd kv)) o = true ->
  filter_map (member_text indent) o
  = map (fun kv => QuoteJSONString (fst kv) ++ ": "
                     ++ element_text indent (snd kv)) o.
Proof.
  induction o as [|[k x] o IH]; [reflexivity|]. simpl.
  intros [Hx Ho]%andb_prop. unfold member_text at 1. cbn [fst snd].
  rewrite (element_text_Some indent x (is_json_defined x Hx)).
  now rewrite IH.
Qed.

Lemma length_join_elements (text : JSValue -> string) sep l :
  1 <= String.length sep ->
  Forall (fun x => weight x <= String.length (text x)) l ->
  list_sum (map (fun x => S (weight x)) l)
  <= String.length (join sep (map text l)) + 1.
Proof.
  intros Hsep. induction l as [|x l IH]; intros Hall; [simpl; lia|].
  inversion Hall as [|? ? Hx Hl]; subst. specialize (IH Hl).
  destruct l as [|y l].
  - simpl. lia.
  - cbn [map]. rewrite join_cons2, !length_append.
    cbn [map] in IH. simpl list_sum in *. lia.
Qed.

Lemma length_join_members (text : JSValue -> string) sep
  (o : list (string * JSValue)) :
  1 <= String.length sep ->
  Forall (fun kv => weight (snd kv) <= String.length (text (snd kv))) o ->
  list_sum (map (fun kv => S (weight (snd kv))) o)
  <= String.length
       (join sep
          (map (fun kv => QuoteJSONString (fst kv) ++ ": " ++ text (snd kv))
             o)) + 1.
Proof.
  intros Hsep. induction o as [|[k x] o IH]; intros Hall; [simpl; lia|].
  inversion Hall as [|? ? Hx Hl]; subst. specialize (IH Hl). simpl in Hx.
  destruct o as [|[k' y] o].
  - cbn [map join fst snd]. rewrite !length_append. simpl list_sum. lia.
  - cbn [map]. rewrite join_cons2. cbn [fst snd].
    rewrite !length_append. cbn [map fst snd] in IH.
    simpl list_sum in *. lia.
Qed.


Lemma Number_toString_head n :
  exists c t,
    Number_toString n = String c t /\ (is_digit c = true \/ c = "-"%char).
Proof.
  destruct n as [|p|p]; unfold Number_toString.
  - exists "0"%char, "". split; [reflexivity | now left].
  - destruct (head_uint (Pos.to_uint p)) as (c & Hc & Hdigit);
      [apply DecimalPos.Unsigned.to_uint_nonnil|].
    destruct (NilEmpty.string_of_uint (Pos.to_uint p)) as [|c' t];
      [discriminate|].
    injection Hc as ->. exists c, t. split; [reflexivity | now left].
  - eexists "-"%char, _. split; [reflexivity | now right].
Qed.

Lemma value_start_number c :
  is_digit c = true \/ c = "-"%char -> value_start c = true.
Proof.
  unfold value_start. intros [-> | ->]; reflexivity.
Qed.

Lemma Forall_json (Q : JSValue -> Prop) l :
  Forall (fun x => is_json x = true -> Q x) l ->
  forallb is_json l = true -> Forall Q l.
Proof.
  induction 1 as [|x l Hx _ IH]; [constructor|]. simpl.
  intros [Hjx Hjl]%andb_prop. constructor; auto.
Qed.

Lemma Forall_json_members (Q : JSValue -> Prop) (o : list (string * JSValue)) :
  Forall (fun kv => is_json (snd kv) = true -> Q (snd kv)) o ->
  forallb (fun kv => is_json (snd kv)) o = true ->
  Forall (fun kv => Q (snd kv)) o.
Proof.
  induction 1 as [|x l Hx _ IH]; [constructor|]. simpl.
  intros [Hjx Hjl]%andb_prop. constructor; auto.
Qed.

Lemma json_reads_back v :
  is_json v = true ->
  forall indent, all_ws indent = true ->
  reads_back v (element_text indent v).
Proof.
  induction v as [| |b|n|str|l IH|o IH] using JSValue_nested_ind;
    intros Hjson indent Hindent.
  - discriminate.
  - repeat split; [now exists "n"%char | simpl; lia |].
    intros [|fuel] rest Hfuel _; [simpl in Hfuel; lia | reflexivity].
  - destruct b; (repeat split;
      [eexists; split; reflexivity | simpl; lia |]);
      intros [|fuel] rest Hfuel _; simpl in Hfuel; try lia; reflexivity.
  - unfold element_text. cbn [SerializeJSONProperty].
    destruct (Number_toString_head n) as (c & t & Htext & Hc).
    repeat split.
    + exists c. rewrite Htext. split; [reflexivity|].
      now apply value_start_number.
    + rewrite Htext. simpl. lia.
    + intros [|fuel] rest Hfuel Hrest; [simpl in Hfuel; lia|].
      rewrite <- (parse_number_toString n rest Hrest), Htext.
      now apply parse_value_number.
  - unfold element_text. cbn [SerializeJSONProperty]. repeat split.
    + now exists dquote.
    + unfold QuoteJSONString. rewrite length_append. simpl. lia.
    + intros [|fuel] rest Hfuel _; [simpl in Hfuel; lia|].
      unfold QuoteJSONString. rewrite !append_assoc.
      change (dq ++ ?t) with (String dquote t) at 1.
      now rewrite parse_value_string, parse_string_chars_escape.
  - unfold element_text. rewrite Serialize_JArr.
    destruct l as [|x l].
    { repeat split; [now exists "["%char | simpl; lia |].
      intros [|fuel] rest Hfuel _; [simpl in Hfuel; lia | reflexivity]. }
    set (indent' := indent ++ gap).
    assert (Hindent' : all_ws indent' = true)
      by (unfold indent'; rewrite all_ws_append, Hindent; reflexivity).
    assert (Hall : Forall (fun x => reads_back x (element_text indent' x))
                     (x :: l)).
    { apply Forall_json; [|exact Hjson].
      eapply Forall_impl; [|exact IH]. intros y Hy Hjy. now apply Hy. }
    set (J := join ("," ++ nl ++ indent') (map (element_text indent') (x :: l))).
    assert (Hhead : forall tail,
               skip_ws (J ++ tail) = J ++ tail
               /\ strip_prefix "]" (J ++ tail) = None).
    { intros tail. unfold J.
      assert (Hx : reads_back x (element_text indent' x)) by now inversion Hall.
      destruct l as [|y l].
      - cbn [map join]. split; apply (reads_back_head x _ tail Hx).
      - cbn [map]. rewrite join_cons2, !append_assoc.
        split; apply (reads_back_head x _ _ Hx). }
    repeat split.
    + now exists "["%char.
    + cbn [weight]. rewrite !length_append. fold J.
      assert (Hlen : list_sum (map (fun x => S (weight x)) (x :: l))
                     <= String.length J + 1).
      { apply length_join_elements.
        - rewrite length_append. simpl. lia.
        - eapply Forall_impl; [|exact Hall]. now intros y (_ & Hy & _). }
      simpl String.length. lia.
    + intros [|fuel] rest Hfuel _; [simpl in Hfuel; lia|].
      rewrite !append_assoc.
      change ("[" ++ ?t) with (String "[" t).
      rewrite parse_value_array.
      rewrite <- (append_assoc nl indent'), skip_ws_all_ws
        by (rewrite all_ws_append, Hindent'; reflexivity).
      fold J. destruct (Hhead (nl ++ indent ++ "]" ++ rest)) as [-> ->].
      unfold J. rewrite parse_elements_join; auto; [discriminate|].
      cbn [weight] in Hfuel. lia.
  - unfold element_text. rewrite Serialize_JObj.
    cbn [is_json] in Hjson. apply andb_prop in Hjson as [Hdistinct Hjson].
    set (indent' := indent ++ gap).
    rewrite (filter_map_member_text indent' o Hjson).
    destruct o as [|kv o].
    { repeat split; [now exists "{"%char | simpl; lia |].
      intros [|fuel] rest Hfuel _; [simpl in Hfuel; lia | reflexivity]. }
    assert (Hindent' : all_ws indent' = true)
      by (unfold indent'; rewrite all_ws_append, Hindent; reflexivity).
    assert (Hall : Forall (fun kv => reads_back (snd kv)
                                       (element_text indent' (snd kv)))
                     (kv :: o)).
    { apply (Forall_json_members
               (fun x => reads_back x (element_text indent' x)));
        [|exact Hjson].
      eapply Forall_impl; [|exact IH]. intros y Hy Hjy. now apply Hy. }
    set (line := fun kv : string * JSValue =>
                   QuoteJSONString (fst kv) ++ ": "
                     ++ element_text indent' (snd kv)).
    set (J := join ("," ++ nl ++ indent') (map line (kv :: o))).
    assert (Hhead : forall tail, head (J ++ tail) = Some dquote).
    { intros tail. unfold J. destruct o; reflexivity. }
    cbn [map]. fold (map line (kv :: o)). fold J.
    repeat split.
    + now exists "{"%char.
    + cbn [weight]. rewrite !length_append.
      assert (Hlen : list_sum (map (fun kv => S (weight (snd kv))) (kv :: o))
                     <= String.length J + 1).
      { apply (length_join_members (element_text indent')).
        - rewrite length_append. simpl. lia.
        - eapply Forall_impl; [|exact Hall]. now intros y (_ & Hy & _). }
      simpl String.length. lia.
    + intros [|fuel] rest Hfuel _; [simpl in Hfuel; lia|].
      rewrite !append_assoc.
      change ("{" ++ ?t) with (String "{" t).
      rewrite parse_value_object.
      rewrite <- (append_assoc nl indent'), skip_ws_all_ws
        by (rewrite all_ws_append, Hindent'; reflexivity).
      rewrite (skip_ws_head _ dquote (Hhead _) eq_refl).
      rewrite (strip_prefix_other "}" "" _ dquote (Hhead _) eq_refl).
      unfold J, line.
      rewrite (parse_members_join (element_text indent')); auto;
        [|discriminate|cbn [weight] in Hfuel; lia].
      now rewrite make_object_distinct.
Qed.

(** [JSON.parse] undoes [JSON.stringify(v, null, 2)] on JSON values. *)
Lemma JSON_parse_stringify v :
  is_json v = true ->
  exists text, JSON_stringify v = Some text /\ JSON_parse text = Some v.
Proof.
  intros Hjson. exists (element_text "" v). split.
  - apply element_text_Some. now apply is_json_defined.
  - pose proof (json_reads_back v Hjson "" eq_refl) as Hback.
    pose proof (reads_back_head v _ "" Hback) as (Hskip & _).
    destruct Hback as (_ & Hlen & Hparse).
    rewrite append_nil_r in Hskip.
    specialize (Hparse _ "" Hlen eq_refl). rewrite append_nil_r in Hparse.
    unfold JSON_parse. now rewrite Hskip, Hparse.
Qed.


End JSONFacts.

(** ** The registry *)

Section RegistryFacts.

Context {W : Type}.
Implicit Types (registry : DefaultToolRegistry W) (handler : ToolHandler W).

Lemma get_name registry n handler :
  get registry n = Some handler -> name handler = n.
Proof.
  induction registry as [|h r IH]; simpl; [discriminate|].
  destruct (String.eqb_spec (name h) n) as [E|E]; [|exact IH].
  intros [= <-]. exact E.
Qed.

Lemma get_None registry n :
  get registry n = None <-> ~ In n (map name registry).
Proof.
  induction registry as [|h r IH]; simpl; [tauto|].
  destruct (String.eqb_spec (name h) n) as [E|E].
  - split; [discriminate | intros H; exfalso; apply H; now left].
  - rewrite IH. tauto.
Qed.

Lemma get_NoDup registry handler :
  NoDup (map name registry) -> In handler registry ->
  get registry (name handler) = Some handler.
Proof.
  induction registry as [|h r IH]; simpl; [tauto|].
  intros Hnd [-> | Hin].
  - now rewrite String.eqb_refl.
  - inversion Hnd as [|? ? Hnotin Hnd']; subst.
    destruct (String.eqb_spec (name h) (name handler)) as [E|E].
    + exfalso. apply Hnotin. rewrite E. now apply in_map.
    + now apply IH.
Qed.

Lemma register_Ok registry handler registry' :
  register registry handler = Ok registry' ->
  ~ In (name handler) (map name registry)
  /\ registry' = (registry ++ [handler])%list.
Proof.
  unfold register.
  destruct (get registry (name handler)) eqn:E; [discriminate|].
  intros [= <-]. split; [now apply get_None | reflexivity].
Qed.

Lemma register_fresh registry handler :
  ~ In (name handler) (map name registry) ->
  register registry handler = Ok (registry ++ [handler])%list.
Proof.
  intros H. unfold register.
  now rewrite (proj2 (get_None registry (name handler)) H).
Qed.

Lemma NoDup_names_snoc registry handler :
  NoDup (map name registry) ->
  ~ In (name handler) (map name registry) ->
  NoDup (map name (registry ++ [handler])%list).
Proof.
  intros Hnd Hnotin. rewrite map_app. simpl.
  apply NoDup_app; [exact Hnd | repeat constructor; simpl; tauto |].
  intros x Hx [<- | []]. now apply Hnotin.
Qed.

Lemma reachable_NoDup registry :
  reachable registry -> NoDup (map name registry).
Proof.
  induction 1 as [|r h r' _ IH Hreg]; [constructor|].
  apply register_Ok in Hreg as [Hnotin ->].
  now apply NoDup_names_snoc.
Qed.

(** The loop of [registerHandlers] over handlers whose names are new
    and distinct appends them in order and only writes log lines. *)
Lemma registerHandlers_app handlers : forall registry s,
  NoDup (map name (registry ++ handlers)%list) ->
  exists s',
    registerHandlers handlers registry s
      = (Ok (registry ++ handlers)%list, s')
    /\ world s' = world s.
Proof.
  induction handlers as [|h hs IH]; intros r s Hnd.
  - exists s. simpl. rewrite List.app_nil_r. now split.
  - assert (Hfresh : ~ In (name h) (map name r)).
    { rewrite map_app in Hnd. simpl in Hnd.
      apply NoDup_remove_2 in Hnd. intros Hin. apply Hnd.
      apply in_or_app. now left. }
    destruct (IH (r ++ [h])%list
                (logged DEBUG ("Registered tool: " ++ name h) s))
      as (s' & Hrun & Hw).
    { now rewrite <- List.app_assoc. }
    exists s'. split; [|exact Hw].
    simpl. unfold bind at 1, lift. rewrite (register_fresh _ _ Hfresh).
    unfold bind at 1. simpl. rewrite Hrun. now rewrite <- List.app_assoc.
Qed.

End RegistryFacts.

(** ** The request handlers *)

Section ServerFacts.

Context {W : Type}.
Implicit Types (this : SiyuanMCPServer W) (s : State W).

(** The call-tool handler on a registered tool: the log line, then the
    outcome of [execute] through the success path or the catch block. *)
Lemma CallTool_registered this n args handler s :
  get (registry this) n = Some handler ->
  CallToolRequestHandler this n args s =
  match execute handler (or_empty args) (context this)
          (logged INFO ("Tool called: " ++ n) s) with
  | (Ok result, s1) =>
      (Ok {| CallToolResult.content := [{| TextContent.type := "text";
                                           TextContent.text := result_text result |}];
             CallToolResult.isError := None |}, s1)
  | (Throw caught, s1) =>
      match message_of caught with
      | Ok m =>
          (Ok {| CallToolResult.content := [{| TextContent.type := "text";
                                               TextContent.text := "Error: " ++ m |}];
                 CallToolResult.isError := Some true |},
           logged ERROR ("Tool execution failed: " ++ m) s1)
      | Throw e => (Throw e, s1)
      end
  end.
Proof.
  intros Hget. unfold CallToolRequestHandler, bind at 1, try_catch.
  simpl. unfold log_line. rewrite Hget. unfold bind at 1.
  destruct (execute handler _ _ _) as [[result|caught] s1]; [reflexivity|].
  unfold bind, lift. destruct (message_of caught); reflexivity.
Qed.

Lemma serve_cons this request rest s :
  serve this (request :: rest) s =
  (fst (dispatch this request s)
     :: fst (serve this rest (snd (dispatch this request s))),
   snd (serve this rest (snd (dispatch this request s)))).
Proof.
  simpl. destruct (dispatch this request s) as [response s']. simpl.
  now destruct (serve this rest s').
Qed.

(** C1. When [execute] of a registered handler throws or rejects with an
    error whose message is [m], the call-tool handler resolves to the
    envelope [{content: [{type: "text", text: "Error: " + m}], isError:
    true}]; it does not reject, and the dispatch loop answers that
    envelope and goes on with the requests that follow. *)
Theorem CallTool_handler_failure
  this n args handler (cls m : string) s s1 (rest : list Request) :
  get (registry this) n = Some handler ->
  execute handler (or_empty args) (context this)
    (logged INFO ("Tool called: " ++ n) s) = (Throw (ErrorObj cls m), s1) ->
  let envelope :=
    {| CallToolResult.content := [{| TextContent.type := "text";
                                     TextContent.text := "Error: " ++ m |}];
       CallToolResult.isError := Some true |} in
  let s2 := logged ERROR ("Tool execution failed: " ++ m) s1 in
  CallToolRequestHandler this n args s = (Ok envelope, s2)
  /\ serve this (CallToolRequest n args :: rest) s =
     (CallToolResponse envelope :: fst (serve this rest s2),
      snd (serve this rest s2)).
Proof.
  intros Hget Hexec envelope s2.
  assert (Hcall : CallToolRequestHandler this n args s = (Ok envelope, s2)).
  { rewrite (CallTool_registered _ _ _ _ _ Hget), Hexec. reflexivity. }
  split; [exact Hcall|].
  rewrite serve_cons. unfold dispatch, respond. now rewrite Hcall.
Qed.

Lemma SerializeJSONProperty_defined indent v :
  v <> JUndefined -> exists text, JS.SerializeJSONProperty indent v = Some text.
Proof.
  destruct v as [| |[|]|n|str|l|o]; intros Hv; simpl;
    try (eexists; reflexivity); try congruence.
  - destruct (map _ l); eexists; reflexivity.
  - match goal with |- context [match ?p with [] => _ | _ :: _ => _ end] =>
      destruct p end; eexists; reflexivity.
Qed.

(** C2 (as amended). When [execute] of a registered handler resolves, the
    call-tool handler resolves to an envelope with exactly one text block
    and no [isError] property: the text is ["Success"] for [undefined],
    the result itself for a string, and [JSON.stringify(result, null, 2)]
    for any other value. *)
Theorem CallTool_success this n args handler result s s1 :
  get (registry this) n = Some handler ->
  execute handler (or_empty args) (context this)
    (logged INFO ("Tool called: " ++ n) s) = (Ok result, s1) ->
  exists text,
    CallToolRequestHandler this n args s =
      (Ok {| CallToolResult.content := [{| TextContent.type := "text";
                                           TextContent.text := text |}];
             CallToolResult.isError := None |}, s1)
    /\ match result with
       | JUndefined => text = "Success"
       | JStr str => text = str
       | _ => JS.JSON_stringify result = Some text
       end.
Proof.
  intros Hget Hexec. exists (result_text result). split.
  - rewrite (CallTool_registered _ _ _ _ _ Hget), Hexec. reflexivity.
  - destruct result; try reflexivity; unfold result_text, JS.JSON_stringify;
      match goal with |- context [JS.SerializeJSONProperty ?i ?v] =>
        destruct (SerializeJSONProperty_defined i v) as [t ->];
          [discriminate | reflexivity]
      end.
Qed.

(** C3. For a name that the registry does not know, the call-tool handler
    resolves (it does not reject) to an error envelope whose text names
    the tool asked for. *)
Theorem CallTool_unknown_tool this n args s :
  get (registry this) n = None ->
  CallToolRequestHandler this n args s =
    (Ok {| CallToolResult.content :=
             [{| TextContent.type := "text";
                 TextContent.text := "Error: Unknown tool: " ++ n |}];
           CallToolResult.isError := Some true |},
     logged ERROR ("Tool execution failed: Unknown tool: " ++ n)
       (logged INFO ("Tool called: " ++ n) s)).
Proof.
  intros Hget. unfold CallToolRequestHandler, bind at 1, try_catch.
  simpl. unfold log_line. rewrite Hget. reflexivity.
Qed.


(** C5. Registering handlers with pairwise distinct names, in sequence
    from the empty registry, succeeds; [getAll] then lists the handlers in
    registration order and [get] answers, for the name of each, that very
    handler. *)
Theorem register_order_and_lookup (handlers : list (ToolHandler W)) s :
  NoDup (map name handlers) ->
  exists registry s',
    registerHandlers handlers empty_registry s = (Ok registry, s')
    /\ reachable registry
    /\ getAll registry = handlers
    /\ forall handler, In handler handlers ->
         get registry (name handler) = Some handler.
Proof.
  intros Hnd.
  destruct (registerHandlers_app handlers empty_registry s Hnd)
    as (s' & Hrun & _).
  exists handlers, s'. split; [exact Hrun|]. split; [|split].
  - clear Hrun. revert Hnd.
    induction handlers as [|h hs IH] using rev_ind; [constructor|].
    intros Hnd. rewrite map_app in Hnd.
    apply reachable_register with (registry := hs) (handler := h).
    + apply IH. now apply NoDup_app_remove_r in Hnd.
    + apply register_fresh. intros Hin.
      apply NoDup_remove_2 in Hnd. apply Hnd. now rewrite List.app_nil_r.
  - reflexivity.
  - intros handler Hin. now apply get_NoDup.
Qed.

(** C6. In every registry that [register] calls can build, no two
    handlers share a name and every handler listed is the one [get]
    answers for its name; [register] with a name already present is
    rejected, and the registration loop stops there without a new
    registry and without any other effect. *)
Theorem register_rejects_duplicates (registry : DefaultToolRegistry W) :
  reachable registry ->
  NoDup (map name registry)
  /\ (forall handler, In handler (getAll registry) ->
        get registry (name handler) = Some handler)
  /\ (forall handler rest s,
        In (name handler) (map name registry) ->
        exists e,
          register registry handler = Throw e
          /\ registerHandlers (handler :: rest) registry s = (Throw e, s)).
Proof.
  intros Hreach. pose proof (reachable_NoDup _ Hreach) as Hnd.
  split; [exact Hnd|]. split.
  - intros handler Hin. now apply get_NoDup.
  - intros handler rest s Hin.
    destruct (get registry (name handler)) as [h|] eqn:Hget.
    + eexists. split.
      * unfold register. rewrite Hget. reflexivity.
      * simpl. unfold bind at 1, lift, register. rewrite Hget. reflexivity.
    + exfalso. now apply (proj1 (get_None registry (name handler))) in Hget.
Qed.

(** C7. The list-tools handler always resolves, to the descriptors
    [{name, description, inputSchema}] of the registered handlers in
    [getAll] order; on the empty registry that is the empty list. *)
Theorem ListTools_descriptors this (ctx : ExecutionContext W) s :
  let tools :=
    map (fun handler =>
           {| MCPTool.name := name handler;
              MCPTool.description := description handler;
              MCPTool.inputSchema := inputSchema handler |})
        (getAll (registry this)) in
  ListToolsRequestHandler this s =
    (Ok tools,
     logged DEBUG
       ("Listing " ++ JS.Number_toString (Z.of_nat (List.length tools))
          ++ " tools") s)
  /\ List.length tools = List.length (getAll (registry this))
  /\ fst (ListToolsRequestHandler
            {| registry := empty_registry; context := ctx |} s) = Ok [].
Proof.
  intros tools. split; [reflexivity|]. split; [|reflexivity].
  unfold tools. now rewrite length_map.
Qed.

(** C8. The get-prompt handler resolves to the two messages of the usage
    guide for the name ["siyuan-usage-guide"]; for any other name it
    throws [Error("Unknown prompt: " + name)], which the dispatch loop
    answers as a protocol-level error, not as a response envelope. *)
Theorem GetPrompt_known_or_thrown this (n : string) s :
  (n = "siyuan-usage-guide" ->
   GetPromptRequestHandler n s =
     (Ok [ {| PromptMessage.role := "user";
              PromptMessage.content :=
                {| TextContent.type := "text";
                   TextContent.text := "Please read the SiYuan MCP server usage guide." |} |};
           {| PromptMessage.role := "assistant";
              PromptMessage.content := {| TextContent.type := "text";
                                          TextContent.text := getUsageGuide |} |} ], s))
  /\ (n <> "siyuan-usage-guide" ->
      GetPromptRequestHandler n s =
        (Throw (Error ("Unknown prompt: " ++ n)), s)
      /\ dispatch this (GetPromptRequest n) s =
           (ProtocolError (Error ("Unknown prompt: " ++ n)), s)).
Proof.
  split.
  - intros ->. reflexivity.
  - intros Hn. apply String.eqb_neq in Hn.
    unfold dispatch, respond, GetPromptRequestHandler. rewrite Hn.
    split; reflexivity.
Qed.

End ServerFacts.

(** ** The handlers *)

Section HandlerFacts.

Context {W : Type}.
Implicit Types (ctx : ExecutionContext W) (s : State W) (args : JSObject).

(** C9. [execute] of [insert_block] throws when neither [before_id] nor
    [after_id] is truthy and when both are, without calling the
    workspace; when exactly one is, it is the call of the corresponding
    operation, [insertBlockBefore] or [insertBlockAfter], with that id and
    the content, and it resolves to [{block_id}] with the id the
    operation answers. *)
Theorem InsertBlock_exactly_one args ctx s :
  let before_id := JS.get args "before_id" in
  let after_id := JS.get args "after_id" in
  let content := JS.get args "content" in
  let block_id (op : M W JSValue) : M W JSValue :=
    blockId <- op ;; ret (JObj [("block_id", blockId)]) in
  (JS.truthy before_id = false -> JS.truthy after_id = false ->
   InsertBlockHandler.execute args ctx s =
     (Throw (Error "Must provide exactly one of: before_id or after_id"), s))
  /\ (JS.truthy before_id = true -> JS.truthy after_id = true ->
      InsertBlockHandler.execute args ctx s =
        (Throw (Error "Cannot provide both before_id and after_id — choose only one"), s))
  /\ (JS.truthy before_id = true -> JS.truthy after_id = false ->
      InsertBlockHandler.execute args ctx s =
        block_id (insertBlockBefore (block (siyuan ctx)) before_id content) s
      /\ forall id s',
           insertBlockBefore (block (siyuan ctx)) before_id content s
             = (Ok id, s') ->
           InsertBlockHandler.execute args ctx s
             = (Ok (JObj [("block_id", id)]), s'))
  /\ (JS.truthy before_id = false -> JS.truthy after_id = true ->
      InsertBlockHandler.execute args ctx s =
        block_id (insertBlockAfter (block (siyuan ctx)) after_id content) s
      /\ forall id s',
           insertBlockAfter (block (siyuan ctx)) after_id content s
             = (Ok id, s') ->
           InsertBlockHandler.execute args ctx s
             = (Ok (JObj [("block_id", id)]), s')).
Proof.
  intros before_id after_id content block_id.
  unfold InsertBlockHandler.execute. fold before_id after_id content.
  split; [|split; [|split]]; intros Hb Ha; rewrite Hb, Ha; simpl;
    try reflexivity;
    (split; [reflexivity|]);
    intros id s' Hop; unfold bind; rewrite Hop; reflexivity.
Qed.




End HandlerFacts.

(** ** Concrete runs *)

(** C2, as stated, fails: the envelope of a successful call has no
    [isError] property (here for the handler of the spec's scenario, whose
    result is [undefined] when no value is given); it is not the envelope
    with [isError: false]. *)
Lemma CallTool_success_has_no_isError :
  fst (CallToolRequestHandler sample_server "echo" None initial)
    = Ok {| CallToolResult.content := [{| TextContent.type := "text";
                                          TextContent.text := "Success" |}];
            CallToolResult.isError := None |}
  /\ fst (CallToolRequestHandler sample_server "echo" None initial)
    <> Ok {| CallToolResult.content := [{| TextContent.type := "text";
                                           TextContent.text := "Success" |}];
             CallToolResult.isError := Some false |}.
Proof.
  split; [reflexivity|]. intros H. discriminate H.
Qed.

Lemma CallTool_handler_failure_witness :
  get (registry sample_server) "failing" = Some failing
  /\ CallToolRequestHandler sample_server "failing" None initial =
       (Ok {| CallToolResult.content :=
                [{| TextContent.type := "text";
                    TextContent.text := "Error: need exactly one of A or B" |}];
              CallToolResult.isError := Some true |},
        logged ERROR "Tool execution failed: need exactly one of A or B"
          (logged INFO "Tool called: failing" initial)).
Proof.
  split; [reflexivity|].
  exact (proj1 (CallTool_handler_failure sample_server "failing" None failing
                  "Error" "need exactly one of A or B" initial _ []
                  eq_refl eq_refl)).
Defined.

Lemma CallTool_success_witness :
  get (registry sample_server) "echo" = Some echo
  /\ exists text,
       CallToolRequestHandler sample_server "echo"
         (Some [("value", JStr "hi")]) initial =
         (Ok {| CallToolResult.content := [{| TextContent.type := "text";
                                              TextContent.text := text |}];
                CallToolResult.isError := None |},
          logged INFO "Tool called: echo" initial)
       /\ text = "hi".
Proof.
  split; [reflexivity|].
  exact (CallTool_success sample_server "echo" (Some [("value", JStr "hi")])
           echo (JStr "hi") initial _ eq_refl eq_refl).
Defined.

Lemma CallTool_unknown_tool_witness :
  get (registry sample_server) "nope" = None
  /\ CallToolRequestHandler sample_server "nope" None initial =
       (Ok {| CallToolResult.content :=
                [{| TextContent.type := "text";
                    TextContent.text := "Error: Unknown tool: nope" |}];
              CallToolResult.isError := Some true |},
        logged ERROR "Tool execution failed: Unknown tool: nope"
          (logged INFO "Tool called: nope" initial)).
Proof.
  split; [reflexivity|].
  exact (CallTool_unknown_tool sample_server "nope" None initial eq_refl).
Defined.

Lemma sample_handlers_NoDup : NoDup (map name sample_handlers).
Proof.
  repeat constructor; simpl; intuition discriminate.
Defined.

Lemma register_order_and_lookup_witness :
  NoDup (map name sample_handlers)
  /\ exists registry s',
       registerHandlers sample_handlers empty_registry initial
         = (Ok registry, s')
       /\ reachable registry
       /\ getAll registry = sample_handlers
       /\ forall handler, In handler sample_handlers ->
            get registry (name handler) = Some handler.
Proof.
  split; [exact sample_handlers_NoDup|].
  exact (register_order_and_lookup sample_handlers initial
           sample_handlers_NoDup).
Defined.

Lemma reachable_echo : reachable [echo].
Proof.
  exact (reachable_register empty_registry echo [echo]
           reachable_empty eq_refl).
Defined.

Lemma register_rejects_duplicates_witness :
  reachable [echo]
  /\ exists e,
       register [echo] echo = Throw e
       /\ registerHandlers [echo; failing] [echo] initial = (Throw e, initial).
Proof.
  split; [exact reachable_echo|].
  exact (proj2 (proj2 (register_rejects_duplicates [echo] reachable_echo))
           echo [failing] initial (or_introl eq_refl)).
Defined.

Lemma GetPrompt_known_or_thrown_witness :
  "other" <> "siyuan-usage-guide"
  /\ dispatch sample_server (GetPromptRequest "other") initial =
       (ProtocolError (Error "Unknown prompt: other"), initial).
Proof.
  assert (H : "other" <> "siyuan-usage-guide") by discriminate.
  split; [exact H|].
  exact (proj2 (proj2 (GetPrompt_known_or_thrown sample_server "other"
                         initial) H)).
Defined.

Lemma InsertBlock_exactly_one_witness :
  InsertBlockHandler.execute [("content", JStr "text")] sample_context initial
    = (Throw (Error "Must provide exactly one of: before_id or after_id"),
       initial)
  /\ InsertBlockHandler.execute
       [("content", JStr "text"); ("before_id", JStr "20240101120000-aaaaaaa");
        ("after_id", JStr "20240101120000-bbbbbbb")] sample_context initial
     = (Throw (Error "Cannot provide both before_id and after_id — choose only one"),
        initial)
  /\ InsertBlockHandler.execute
       [("content", JStr "text"); ("before_id", JStr "20240101120000-aaaaaaa")]
       sample_context initial
     = (Ok (JObj [("block_id", sample_block_id)]),
        mkState [] ["insertBlockBefore"])
  /\ InsertBlockHandler.execute
       [("content", JStr "text"); ("after_id", JStr "20240101120000-bbbbbbb")]
       sample_context initial
     = (Ok (JObj [("block_id", sample_block_id)]),
        mkState [] ["insertBlockAfter"]).
Proof.
  split; [|split; [|split]].
  - exact (proj1 (InsertBlock_exactly_one [("content", JStr "text")]
                    sample_context initial) eq_refl eq_refl).
  - exact (proj1 (proj2 (InsertBlock_exactly_one
             [("content", JStr "text");
              ("before_id", JStr "20240101120000-aaaaaaa");
              ("after_id", JStr "20240101120000-bbbbbbb")]
             sample_context initial))
             eq_refl eq_refl).
  - exact (proj2 (proj1 (proj2 (proj2
             (InsertBlock_exactly_one
                [("content", JStr "text");
                 ("before_id", JStr "20240101120000-aaaaaaa")]
                sample_context initial)))
             eq_refl eq_refl) _ _ eq_refl).
  - exact (proj2 (proj2 (proj2 (proj2
             (InsertBlock_exactly_one
                [("content", JStr "text");
                 ("after_id", JStr "20240101120000-bbbbbbb")]
                sample_context initial)))
             eq_refl eq_refl) _ _ eq_refl).
Defined.



(** The text of a structured result is laid out with two spaces of
    indentation per level. *)
Example CallTool_insert_block_text :
  fst (CallToolRequestHandler sample_server "insert_block"
         (Some [("content", JStr "text");
                ("after_id", JStr "20240101120000-bbbbbbb")]) initial)
  = Ok {| CallToolResult.content :=
            [{| TextContent.type := "text";
                TextContent.text :=
                  "{" ++ JS.nl ++ "  " ++ JS.dq ++ "block_id" ++ JS.dq ++ ": "
                  ++ JS.dq ++ "20240101120000-abc1234" ++ JS.dq ++ JS.nl ++ "}" |}];
          CallToolResult.isError := None |}.
Proof. reflexivity. Qed.



(** ** The block operations of the workspace *)

Section BlockApiFacts.

Context {W : Type}.

Variable client : SiyuanClient W.

Implicit Types (s : State W) (response : SiyuanResponse.t).

Lemma check_passes failure response s :
  SiyuanResponse.code response = JNum 0 ->
  BlockApi.check (W := W) failure response s = (Ok tt, s).
Proof. intros H. unfold BlockApi.check. now rewrite H. Qed.

Lemma check_throws failure response m s :
  strict_not_zero (SiyuanResponse.code response) = true ->
  JS.ToString (SiyuanResponse.msg response) = Ok m ->
  BlockApi.check (W := W) failure response s
  = (Throw (Error (failure ++ m)), s).
Proof.
  intros Hcode Hmsg. unfold BlockApi.check, bind, lift.
  now rewrite Hcode, Hmsg.
Qed.

Lemma first_operation_id_found response first rest o operations :
  SiyuanResponse.data response = JArr (JObj first :: rest) ->
  JS.get first "doOperations" = JArr (JObj o :: operations) ->
  BlockApi.first_operation_id response = Ok (JS.get o "id").
Proof.
  intros Hdata Hops. unfold BlockApi.first_operation_id.
  rewrite Hdata. simpl. now rewrite Hops.
Qed.

(** X1. When the workspace answers code 0 and a list of transactions,
    [insertBlockBefore], [insertBlockAfter] and [appendBlock] resolve to
    the id of the first operation of the first transaction; the first
    two send the same endpoint and differ by the property that carries
    the reference block, [previousID] for [insertBlockBefore] and
    [nextID] for [insertBlockAfter]. *)
Theorem BlockApi_new_block_id
  (reference content : JSValue) response first rest o operations s s' :
  SiyuanResponse.code response = JNum 0 ->
  SiyuanResponse.data response = JArr (JObj first :: rest) ->
  JS.get first "doOperations" = JArr (JObj o :: operations) ->
  (request client "/api/block/insertBlock"
     (JObj [("previousID", reference); ("dataType", JStr "markdown");
            ("data", content)]) s = (Ok response, s') ->
   BlockApi.insertBlockBefore client reference content s
   = (Ok (JS.get o "id"), s'))
  /\ (request client "/api/block/insertBlock"
        (JObj [("nextID", reference); ("dataType", JStr "markdown");
               ("data", content)]) s = (Ok response, s') ->
      BlockApi.insertBlockAfter client reference content s
      = (Ok (JS.get o "id"), s'))
  /\ (request client "/api/block/appendBlock"
        (JObj [("parentID", reference); ("dataType", JStr "markdown");
               ("data", content)]) s = (Ok response, s') ->
      BlockApi.appendBlock client reference content s
      = (Ok (JS.get o "id"), s')).
Proof.
  intros Hcode Hdata Hops.
  pose proof (first_operation_id_found _ _ _ _ _ Hdata Hops) as Hid.
  repeat split; intros Hrequest;
    unfold BlockApi.insertBlockBefore, BlockApi.insertBlockAfter,
      BlockApi.appendBlock, bind at 1; rewrite Hrequest;
    unfold bind at 1; rewrite (check_passes _ _ _ Hcode);
    unfold lift; now rewrite Hid.
Qed.

(** X2. Each of the seven methods that check the answer rejects, when
    the code of the answer is not the number 0, with
    [Error("Failed to ...: " + msg)], whatever the data of the answer,
    and makes no other request. *)
Theorem BlockApi_failure_reported (a b c : JSValue) response m s s' :
  strict_not_zero (SiyuanResponse.code response) = true ->
  JS.ToString (SiyuanResponse.msg response) = Ok m ->
  (request client "/api/block/updateBlock"
     (JObj [("id", a); ("dataType", JStr "markdown"); ("data", b)]) s
     = (Ok response, s') ->
   BlockApi.updateBlock client a b s
   = (Throw (Error ("Failed to update block: " ++ m)), s'))
  /\ (request client "/api/block/appendBlock"
        (JObj [("parentID", a); ("dataType", JStr "markdown"); ("data", b)]) s
        = (Ok response, s') ->
      BlockApi.appendBlock client a b s
      = (Throw (Error ("Failed to append block: " ++ m)), s'))
  /\ (request client "/api/block/insertBlock"
        (JObj [("previousID", a); ("dataType", JStr "markdown"); ("data", b)])
        s = (Ok response, s') ->
      BlockApi.insertBlockBefore client a b s
      = (Throw (Error ("Failed to insert block: " ++ m)), s'))
  /\ (request client "/api/block/insertBlock"
        (JObj [("nextID", a); ("dataType", JStr "markdown"); ("data", b)]) s
        = (Ok response, s') ->
      BlockApi.insertBlockAfter client a b s
      = (Throw (Error ("Failed to insert block: " ++ m)), s'))
  /\ (request client "/api/block/deleteBlock" (JObj [("id", a)]) s
        = (Ok response, s') ->
      BlockApi.deleteBlock client a s
      = (Throw (Error ("Failed to delete block: " ++ m)), s'))
  /\ (request client "/api/block/moveBlock"
        (JObj [("id", a); ("previousID", b); ("parentID", c)]) s
        = (Ok response, s') ->
      BlockApi.moveBlock client a b c s
      = (Throw (Error ("Failed to move block: " ++ m)), s'))
  /\ (request client "/api/attr/setBlockAttrs"
        (JObj [("id", a); ("attrs", b)]) s = (Ok response, s') ->
      BlockApi.setBlockAttrs client a b s
      = (Throw (Error ("Failed to set block attrs: " ++ m)), s')).
Proof.
  intros Hcode Hmsg.
  repeat split; intros Hrequest;
    unfold BlockApi.updateBlock, BlockApi.appendBlock,
      BlockApi.insertBlockBefore, BlockApi.insertBlockAfter,
      BlockApi.deleteBlock, BlockApi.moveBlock, BlockApi.setBlockAttrs,
      bind at 1; rewrite Hrequest;
    unfold bind at 1; now rewrite (check_throws _ _ _ _ Hcode Hmsg).
Qed.

(** X3. With code 0 but no transaction in the answer ([data] an empty
    array, [null] or absent), [insertBlockBefore], [insertBlockAfter] and
    [appendBlock] do not resolve: reading the id throws a TypeError. *)
Theorem BlockApi_missing_operation
  (reference content : JSValue) response s s' :
  SiyuanResponse.code response = JNum 0 ->
  SiyuanResponse.data response = JArr []
  \/ SiyuanResponse.data response = JNull
  \/ SiyuanResponse.data response = JUndefined ->
  exists m,
    (request client "/api/block/insertBlock"
       (JObj [("previousID", reference); ("dataType", JStr "markdown");
              ("data", content)]) s = (Ok response, s') ->
     BlockApi.insertBlockBefore client reference content s
     = (Throw (TypeError m), s'))
    /\ (request client "/api/block/insertBlock"
          (JObj [("nextID", reference); ("dataType", JStr "markdown");
                 ("data", content)]) s = (Ok response, s') ->
        BlockApi.insertBlockAfter client reference content s
        = (Throw (TypeError m), s'))
    /\ (request client "/api/block/appendBlock"
          (JObj [("parentID", reference); ("dataType", JStr "markdown");
                 ("data", content)]) s = (Ok response, s') ->
        BlockApi.appendBlock client reference content s
        = (Throw (TypeError m), s')).
Proof.
  intros Hcode Hdata.
  assert (Hid : exists m,
             BlockApi.first_operation_id response = Throw (TypeError m)).
  { unfold BlockApi.first_operation_id.
    destruct Hdata as [-> | [-> | ->]]; simpl; eexists; reflexivity. }
  destruct Hid as [m Hid]. exists m.
  repeat split; intros Hrequest;
    unfold BlockApi.insertBlockBefore, BlockApi.insertBlockAfter,
      BlockApi.appendBlock, bind at 1; rewrite Hrequest;
    unfold bind at 1; rewrite (check_passes _ _ _ Hcode);
    unfold lift; now rewrite Hid.
Qed.

(** X4. [getChildBlocks] and [getBlockAttrs] do not look at the code of
    the answer and never resolve to a falsy value: they resolve to the
    data of the answer when it is truthy, and to an empty array,
    respectively an empty object, otherwise. *)
Theorem BlockApi_reads_default (blockId : JSValue) response s s' :
  (request client "/api/block/getChildBlocks" (JObj [("id", blockId)]) s
     = (Ok response, s') ->
   exists v,
     BlockApi.getChildBlocks client blockId s = (Ok v, s')
     /\ JS.truthy v = true
     /\ (JS.truthy (SiyuanResponse.data response) = true ->
         v = SiyuanResponse.data response)
     /\ (JS.truthy (SiyuanResponse.data response) = false -> v = JArr []))
  /\ (request client "/api/attr/getBlockAttrs" (JObj [("id", blockId)]) s
        = (Ok response, s') ->
      exists v,
        BlockApi.getBlockAttrs client blockId s = (Ok v, s')
        /\ JS.truthy v = true
        /\ (JS.truthy (SiyuanResponse.data response) = true ->
            v = SiyuanResponse.data response)
        /\ (JS.truthy (SiyuanResponse.data response) = false -> v = JObj [])).
Proof.
  split; intros Hrequest;
    unfold BlockApi.getChildBlocks, BlockApi.getBlockAttrs, bind;
    rewrite Hrequest;
    destruct (JS.truthy (SiyuanResponse.data response)) eqn:Hdata;
    eexists; (split; [reflexivity|]); repeat split; auto; discriminate.
Qed.

(** X5. [getBlockKramdown] and [getBlockMarkdown] do not check the code
    of the answer: when its data is an object they resolve to the
    [kramdown], respectively [content], property of the data (which is
    [undefined] when the property is missing), whatever the code; when
    the data is [null] they reject with a TypeError. *)
Theorem BlockApi_content_unchecked (blockId : JSValue) response s s' :
  (request client "/api/block/getBlockKramdown" (JObj [("id", blockId)]) s
     = (Ok response, s') ->
   (forall o, SiyuanResponse.data response = JObj o ->
      BlockApi.getBlockKramdown client blockId s
      = (Ok (JS.get o "kramdown"), s'))
   /\ (SiyuanResponse.data response = JNull ->
       exists m, BlockApi.getBlockKramdown client blockId s
                 = (Throw (TypeError m), s')))
  /\ (request client "/api/export/exportMdContent" (JObj [("id", blockId)]) s
        = (Ok response, s') ->
      (forall o, SiyuanResponse.data response = JObj o ->
         BlockApi.getBlockMarkdown client blockId s
         = (Ok (JS.get o "content"), s'))
      /\ (SiyuanResponse.data response = JNull ->
          exists m, BlockApi.getBlockMarkdown client blockId s
                    = (Throw (TypeError m), s'))).
Proof.
  split; intros Hrequest;
    unfold BlockApi.getBlockKramdown, BlockApi.getBlockMarkdown, bind, lift;
    rewrite Hrequest; split.
  - now intros o ->.
  - intros ->. eexists. reflexivity.
  - now intros o ->.
  - intros ->. eexists. reflexivity.
Qed.

End BlockApiFacts.

(** ** The handlers over the block operations *)

Lemma strict_not_zero_false v : strict_not_zero v = false -> v = JNum 0.
Proof. destruct v as [| |b|[|p|p]|str|l|o]; simpl; congruence. Qed.

Lemma get_set_property_same o k v : JS.get (JS.set_property o k v) k = v.
Proof.
  induction o as [|[k' v'] rest IH]; simpl.
  - now rewrite String.eqb_refl.
  - destruct (String.eqb k' k) eqn:Hk; simpl; now rewrite Hk.
Qed.

Lemma get_set_property_other o k v k' :
  k' <> k -> JS.get (JS.set_property o k v) k' = JS.get o k'.
Proof.
  intros Hne. induction o as [|[k0 v0] rest IH]; simpl.
  - destruct (String.eqb k k') eqn:Hk; [|reflexivity].
    apply String.eqb_eq in Hk. congruence.
  - destruct (String.eqb k0 k) eqn:Hk; simpl.
    + apply String.eqb_eq in Hk. subst k0.
      destruct (String.eqb k k') eqn:Hk'; [|reflexivity].
      apply String.eqb_eq in Hk'. congruence.
    + now rewrite IH.
Qed.

Lemma has_set_property_other o k v k' :
  k' <> k -> JS.has (JS.set_property o k v) k' = JS.has o k'.
Proof.
  intros Hne. induction o as [|[k0 v0] rest IH]; simpl.
  - destruct (String.eqb k k') eqn:Hk; [|reflexivity].
    apply String.eqb_eq in Hk. congruence.
  - destruct (String.eqb k0 k) eqn:Hk; simpl.
    + reflexivity.
    + now rewrite IH.
Qed.

Lemma truthy_or_default v d :
  JS.truthy d = true -> JS.truthy (or_default v d) = true.
Proof. intros Hd. unfold or_default. now destruct (JS.truthy v) eqn:Hv. Qed.

Section HandlerRuns.

Context {W : Type}.
Implicit Types (s : State W) (facade : Facade.t W) (client : SiyuanClient W)
  (context : ExecutionContext W) (args : JSObject).

(** X6. [insert_block] called through the server over the block
    operations of the workspace, with [before_id] alone: when the
    workspace refuses (a code other than 0), the caller gets the error
    envelope with the text ["Error: Failed to insert block: " + msg];
    when the workspace answers code 0 and its transactions, the caller
    gets the success envelope whose text is the JSON text of
    [{block_id: id}], [id] being the id of the first operation. *)
Theorem CallTool_insert_block_over_api
  (this : SiyuanMCPServer W) client args response s s' :
  get (registry this) "insert_block" = Some InsertBlockHandler.handler ->
  block (siyuan (context this)) = block_api_of client ->
  JS.truthy (JS.get args "before_id") = true ->
  JS.truthy (JS.get args "after_id") = false ->
  request client "/api/block/insertBlock"
    (JObj [("previousID", JS.get args "before_id");
           ("dataType", JStr "markdown");
           ("data", JS.get args "content")])
    (logged INFO "Tool called: insert_block" s) = (Ok response, s') ->
  (forall m,
     strict_not_zero (SiyuanResponse.code response) = true ->
     JS.ToString (SiyuanResponse.msg response) = Ok m ->
     CallToolRequestHandler this "insert_block" (Some args) s =
       (Ok {| CallToolResult.content :=
                [{| TextContent.type := "text";
                    TextContent.text := "Error: Failed to insert block: " ++ m |}];
              CallToolResult.isError := Some true |},
        logged ERROR
          ("Tool execution failed: Failed to insert block: " ++ m) s'))
  /\ (forall first rest o operations,
        SiyuanResponse.code response = JNum 0 ->
        SiyuanResponse.data response = JArr (JObj first :: rest) ->
        JS.get first "doOperations" = JArr (JObj o :: operations) ->
        exists text,
          JS.JSON_stringify (JObj [("block_id", JS.get o "id")]) = Some text
          /\ CallToolRequestHandler this "insert_block" (Some args) s =
               (Ok {| CallToolResult.content :=
                        [{| TextContent.type := "text";
                            TextContent.text := text |}];
                      CallToolResult.isError := None |}, s')).
Proof.
  intros Hget Hblock Hbefore Hafter Hrequest.
  assert (Hrun : forall outcome,
    BlockApi.insertBlockBefore client (JS.get args "before_id")
      (JS.get args "content") (logged INFO "Tool called: insert_block" s)
    = (outcome, s') ->
    execute InsertBlockHandler.handler (or_empty (Some args)) (context this)
      (logged INFO ("Tool called: " ++ "insert_block") s)
    = (match outcome with
       | Ok blockId => Ok (JObj [("block_id", blockId)])
       | Throw e => Throw e
       end, s')).
  { intros outcome Hinsert. simpl execute. simpl or_empty.
    unfold InsertBlockHandler.execute. rewrite Hbefore, Hafter, Hblock.
    change ("Tool called: " ++ "insert_block")
      with "Tool called: insert_block".
    simpl. unfold bind. rewrite Hinsert. now destruct outcome. }
  split.
  - intros m Hcode Hmsg.
    rewrite (CallTool_registered _ _ _ _ _ Hget).
    rewrite (Hrun (Throw (Error ("Failed to insert block: " ++ m)))).
    + reflexivity.
    + unfold BlockApi.insertBlockBefore, bind at 1. rewrite Hrequest.
      unfold bind at 1. now rewrite (check_throws _ _ _ _ Hcode Hmsg).
  - intros first rest o operations Hcode Hdata Hops.
    destruct (SerializeJSONProperty_defined ""
                (JObj [("block_id", JS.get o "id")])) as [text Htext];
      [discriminate|].
    exists text. split; [exact Htext|].
    rewrite (CallTool_registered _ _ _ _ _ Hget).
    rewrite (Hrun (Ok (JS.get o "id"))).
    + unfold result_text, JS.JSON_stringify. now rewrite Htext.
    + unfold BlockApi.insertBlockBefore, bind at 1. rewrite Hrequest.
      unfold bind at 1. rewrite (check_passes _ _ _ Hcode).
      unfold lift.
      now rewrite (first_operation_id_found _ _ _ _ _ Hdata Hops).
Qed.

(** X7. Over the block operations of the workspace, [update_block],
    [move_block] and [set_block_attrs] resolve only when the workspace
    answered code 0 to their one request, and then to
    [{success: true, block_id}] with the block id of the arguments; a
    resolved [move_block] moreover had a truthy [previous_id] or
    [parent_id]. *)
Theorem block_writes_resolve_on_code_0 facade client args context s result s' :
  Facade.updateBlock facade = BlockApi.updateBlock client ->
  Facade.moveBlock facade = BlockApi.moveBlock client ->
  Facade.setBlockAttrs facade = BlockApi.setBlockAttrs client ->
  let answer := JObj [("success", JBool true);
                      ("block_id", JS.get args "block_id")] in
  (UpdateBlockHandler.execute facade args context s = (Ok result, s') ->
   result = answer
   /\ exists response,
        request client "/api/block/updateBlock"
          (JObj [("id", JS.get args "block_id");
                 ("dataType", JStr "markdown");
                 ("data", JS.get args "content")]) s = (Ok response, s')
        /\ SiyuanResponse.code response = JNum 0)
  /\ (MoveBlockHandler.execute facade args context s = (Ok result, s') ->
      result = answer
      /\ (JS.truthy (JS.get args "previous_id") = true
          \/ JS.truthy (JS.get args "parent_id") = true)
      /\ exists response,
           request client "/api/block/moveBlock"
             (JObj [("id", JS.get args "block_id");
                    ("previousID", JS.get args "previous_id");
                    ("parentID", JS.get args "parent_id")]) s
           = (Ok response, s')
           /\ SiyuanResponse.code response = JNum 0)
  /\ (SetBlockAttrsHandler.execute facade args context s = (Ok result, s') ->
      result = answer
      /\ exists response,
           request client "/api/attr/setBlockAttrs"
             (JObj [("id", JS.get args "block_id");
                    ("attrs", JS.get args "attrs")]) s = (Ok response, s')
           /\ SiyuanResponse.code response = JNum 0).
Proof.
  intros Hupdate Hmove Hset answer.
  assert (Hcheck : forall failure response s0 s1,
             BlockApi.check (W := W) failure response s0 = (Ok tt, s1) ->
             SiyuanResponse.code response = JNum 0 /\ s1 = s0).
  { intros failure response s0 s1. unfold BlockApi.check.
    destruct (strict_not_zero _) eqn:Hcode.
    - unfold bind, lift. destruct (JS.ToString _); discriminate.
    - intros [= <-]. split; [now apply strict_not_zero_false|reflexivity]. }
  split; [|split].
  - unfold UpdateBlockHandler.execute. rewrite Hupdate.
    unfold BlockApi.updateBlock, bind, ret.
    destruct (request client _ _ s) as [[response|e] s0] eqn:Hrequest;
      [|discriminate].
    destruct (BlockApi.check _ response s0) as [[[]|e] s1] eqn:Hc;
      [|discriminate].
    destruct (Hcheck _ _ _ _ Hc) as [Hcode ->].
    intros Hresult. inversion Hresult; subst.
    split; [now subst answer|]. now exists response.
  - unfold MoveBlockHandler.execute.
    destruct (negb (JS.truthy (JS.get args "previous_id"))
              && negb (JS.truthy (JS.get args "parent_id"))) eqn:Htarget;
      [discriminate|].
    rewrite Hmove. unfold BlockApi.moveBlock, bind, ret.
    destruct (request client _ _ s) as [[response|e] s0] eqn:Hrequest;
      [|discriminate].
    destruct (BlockApi.check _ response s0) as [[[]|e] s1] eqn:Hc;
      [|discriminate].
    destruct (Hcheck _ _ _ _ Hc) as [Hcode ->].
    intros Hresult. inversion Hresult; subst.
    split; [now subst answer|]. split; [|now exists response].
    destruct (JS.truthy (JS.get args "previous_id")); [now left|].
    destruct (JS.truthy (JS.get args "parent_id")); [now right|].
    discriminate.
  - unfold SetBlockAttrsHandler.execute. rewrite Hset.
    unfold BlockApi.setBlockAttrs, bind, ret.
    destruct (request client _ _ s) as [[response|e] s0] eqn:Hrequest;
      [|discriminate].
    destruct (BlockApi.check _ response s0) as [[[]|e] s1] eqn:Hc;
      [|discriminate].
    destruct (Hcheck _ _ _ _ Hc) as [Hcode ->].
    intros Hresult. inversion Hresult; subst.
    split; [now subst answer|]. now exists response.
Qed.

(** X8. [move_block] with neither [previous_id] nor [parent_id] (absent,
    [null] or the empty string) throws before any call of the workspace;
    with both given it does not throw as [insert_block] does, and passes
    both to the workspace. *)
Theorem MoveBlock_target facade args context s :
  (JS.truthy (JS.get args "previous_id") = false ->
   JS.truthy (JS.get args "parent_id") = false ->
   forall other : Facade.t W,
     MoveBlockHandler.execute other args context s
     = (Throw (Error "Must provide at least one of: previous_id or parent_id"),
        s))
  /\ (JS.truthy (JS.get args "previous_id") = true ->
      JS.truthy (JS.get args "parent_id") = true ->
      forall outcome s',
        Facade.moveBlock facade (JS.get args "block_id")
          (JS.get args "previous_id") (JS.get args "parent_id") s
        = (Ok outcome, s') ->
        MoveBlockHandler.execute facade args context s
        = (Ok (JObj [("success", JBool true);
                     ("block_id", JS.get args "block_id")]), s')).
Proof.
  split; intros Hprevious Hparent.
  - intros other. unfold MoveBlockHandler.execute.
    now rewrite Hprevious, Hparent.
  - intros outcome s' Hmove. unfold MoveBlockHandler.execute.
    rewrite Hprevious, Hparent. cbn [negb andb].
    unfold bind. now rewrite Hmove.
Qed.

(** X9. The numeric options with a default: a falsy [limit],
    [page_number] or [depth] (absent, [null], and also the number 0) is
    replaced by 10, 10, 1 and 1 in [unified_search],
    [get_recently_updated_documents], [list_snapshots] and
    [get_document_tree]; a truthy one is passed as it is; so the
    workspace never receives a falsy one. *)
Theorem numeric_options_default facade args context :
  let limit := JS.get args "limit" in
  let page_number := JS.get args "page_number" in
  let depth := JS.get args "depth" in
  (exists passed,
     UnifiedSearchHandler.execute facade args context
     = Facade.search facade
         (JObj [("content", JS.get args "content");
                ("tag", JS.get args "tag");
                ("filename", JS.get args "filename");
                ("limit", passed);
                ("notebook", JS.get args "notebook_id");
                ("types", JS.get args "types")])
     /\ JS.truthy passed = true
     /\ (JS.truthy limit = true -> passed = limit)
     /\ (JS.truthy limit = false -> passed = JNum 10))
  /\ (exists passed,
        GetRecentlyUpdatedDocumentsHandler.execute facade args context
        = Facade.getRecentlyUpdatedDocuments facade passed
            (JS.get args "notebook_id")
        /\ JS.truthy passed = true
        /\ (JS.truthy limit = true -> passed = limit)
        /\ (JS.truthy limit = false -> passed = JNum 10))
  /\ (exists passed,
        ListSnapshotsHandler.execute facade args context
        = Facade.getSnapshots facade passed
        /\ JS.truthy passed = true
        /\ (JS.truthy page_number = true -> passed = page_number)
        /\ (JS.truthy page_number = false -> passed = JNum 1))
  /\ (exists passed,
        GetDocumentTreeHandler.execute facade args context
        = Facade.getDocumentTree facade (JS.get args "id") passed
        /\ JS.truthy passed = true
        /\ (JS.truthy depth = true -> passed = depth)
        /\ (JS.truthy depth = false -> passed = JNum 1)).
Proof.
  intros limit page_number depth.
  assert (Hdefault : forall v d, JS.truthy d = true ->
            JS.truthy (or_default v d) = true
            /\ (JS.truthy v = true -> or_default v d = v)
            /\ (JS.truthy v = false -> or_default v d = d)).
  { intros v d Hd. split; [now apply truthy_or_default|].
    unfold or_default. split; intros ->; reflexivity. }
  split; [|split; [|split]]; eexists; (split; [reflexivity|]);
    now apply Hdefault.
Qed.

(** X10. [set_daily_note_format] writes back the configuration it read
    with [dailyNoteSavePath] set to the template and every other
    property as it was read; when reading the configuration fails,
    nothing is written and the failure is that of the read. *)
Theorem SetDailyNoteFormat_keeps_configuration facade args context s :
  let notebook := JS.get args "notebook_id" in
  let template := JS.get args "path_template" in
  (forall conf s1,
     Facade.getNotebookConf facade notebook s = (Ok conf, s1) ->
     exists written,
       SetDailyNoteFormatHandler.execute facade args context s
       = match Facade.setNotebookConf facade notebook (JObj written) s1 with
         | (Ok _, s2) =>
             match JS.ToString template with
             | Ok text => (Ok (JStr ("Daily note format updated to: " ++ text)),
                           s2)
             | Throw e => (Throw e, s2)
             end
         | (Throw e, s2) => (Throw e, s2)
         end
       /\ JS.get written "dailyNoteSavePath" = template
       /\ (forall k, k <> "dailyNoteSavePath" ->
             JS.get written k = JS.get conf k
             /\ JS.has written k = JS.has conf k))
  /\ (forall e s1,
        Facade.getNotebookConf facade notebook s = (Throw e, s1) ->
        SetDailyNoteFormatHandler.execute facade args context s
        = (Throw e, s1)).
Proof.
  intros notebook template. subst notebook template. split.
  - intros conf s1 Hread.
    exists (JS.set_property conf "dailyNoteSavePath"
              (JS.get args "path_template")).
    split; [|split].
    + unfold SetDailyNoteFormatHandler.execute, bind at 1. rewrite Hread.
      unfold bind at 1.
      destruct (Facade.setNotebookConf facade _ _ s1) as [[v|e] s2];
        [|reflexivity].
      unfold bind, lift. now destruct (JS.ToString _).
    + apply get_set_property_same.
    + intros k Hk. split.
      * now apply get_set_property_other.
      * now apply has_set_property_other.
  - intros e s1 Hread.
    unfold SetDailyNoteFormatHandler.execute, bind at 1. now rewrite Hread.
Qed.

(** X11. [create_snapshot] asks for a snapshot with the memo of the
    arguments, or with ["Auto snapshot"] when the memo is falsy (absent,
    [null], or the empty string); the object it resolves to has the
    properties of the answer of the workspace, except [message], which
    is always the text built from the memo, also when the answer had a
    message of its own. *)
Theorem CreateSnapshot_message facade args context s answer s1 text :
  let memo := if JS.truthy (JS.get args "memo")
              then JS.get args "memo" else JStr "Auto snapshot" in
  Facade.createSnapshot facade memo s = (Ok answer, s1) ->
  JS.ToString memo = Ok text ->
  exists result,
    CreateSnapshotHandler.execute facade args context s = (Ok (JObj result), s1)
    /\ JS.get result "message"
       = JStr ("Snapshot created successfully with memo: " ++ JS.dq
               ++ text ++ JS.dq)
    /\ (forall k, k <> "message" ->
          JS.get result k = JS.get answer k
          /\ JS.has result k = JS.has answer k).
Proof.
  intros memo Hcreate Htext. subst memo.
  eexists. split; [|split].
  - unfold CreateSnapshotHandler.execute, or_default.
    unfold bind at 1. rewrite Hcreate. unfold bind, lift. rewrite Htext.
    reflexivity.
  - apply get_set_property_same.
  - intros k Hk. split.
    + now apply get_set_property_other.
    + now apply has_set_property_other.
Qed.

End HandlerRuns.

(** ** Reading a document by pages *)

Lemma append_String c a b : String c a ++ b = String c (a ++ b).
Proof. reflexivity. Qed.

Lemma append_nil_l b : "" ++ b = b.
Proof. reflexivity. Qed.

Section DocumentPages.

Import GetDocumentContentHandler.

Lemma length_split_lines s : List.length (split_lines s) = S (line_feeds s).
Proof.
  induction s as [|c t IH]; [reflexivity|]. simpl.
  destruct (Ascii.eqb c "010"); simpl; [now rewrite IH|].
  destruct (split_lines t); simpl in *; congruence.
Qed.

Lemma join_cons sep p q rest :
  JS.join sep (p :: q :: rest) = p ++ sep ++ JS.join sep (q :: rest).
Proof. reflexivity. Qed.

(** [lines.join('\n')] gives back the text that was split. *)
Lemma join_split_lines s : JS.join JS.nl (split_lines s) = s.
Proof.
  induction s as [|c t IH]; [reflexivity|].
  pose proof (length_split_lines t) as Hlen.
  simpl split_lines. destruct (Ascii.eqb c "010") eqn:Hc.
  - apply Ascii.eqb_eq in Hc. subst c.
    destruct (split_lines t) as [|line rest]; [discriminate|].
    rewrite join_cons, IH. reflexivity.
  - destruct (split_lines t) as [|line [|next rest]]; [discriminate| |].
    + simpl in *. now rewrite IH.
    + rewrite join_cons, append_String. rewrite join_cons in IH.
      now rewrite IH.
Qed.

Lemma slice_inside {A} (start finish : Z) (l : list A) :
  (0 <= start <= finish)%Z -> (finish <= Z.of_nat (List.length l))%Z ->
  slice start finish l
  = firstn (Z.to_nat (finish - start)) (skipn (Z.to_nat start) l).
Proof.
  intros Hstart Hfinish. unfold slice.
  destruct (Z.ltb_spec finish 0); [lia|].
  destruct (Z.ltb_spec start 0); [lia|].
  now rewrite !Z.min_l by lia.
Qed.


Context {W : Type}.

Variable facade : Facade.t W.
Variable unmodelled : JSValue -> JSValue -> string -> Result JSValue.

Implicit Types (s : State W) (args : JSObject)
  (context : ExecutionContext W).

Lemma execute_page args context content text s s1 :
  Facade.getFileContent facade (JS.get args "document_id") s
  = (Ok (JStr content), s1) ->
  page (JS.get args "offset") (JS.get args "limit") content = Some text ->
  execute facade unmodelled args context s = (Ok (JStr text), s1).
Proof.
  intros Hread Hpage. unfold execute, bind. now rewrite Hread, Hpage.
Qed.

(** X12. [get_document_content] without [offset] and [limit] resolves to
    the content of the document, unchanged, after a header whose line
    count is one more than the number of line feeds of the content; with
    [offset] 0 and no [limit] the content goes through [split] and
    [join] and comes back unchanged as well, after a header giving the
    range from 0 to the last line. *)
Theorem GetDocumentContent_whole args context content s s1 :
  Facade.getFileContent facade (JS.get args "document_id") s
  = (Ok (JStr content), s1) ->
  JS.get args "limit" = JUndefined ->
  let total := Z.of_nat (S (line_feeds content)) in
  (JS.get args "offset" = JUndefined ->
   execute facade unmodelled args context s
   = (Ok (JStr (("--- Document Info ---" ++ JS.nl
                 ++ "Total Lines: " ++ JS.Number_toString total ++ JS.nl)
                ++ "--- End Info ---" ++ JS.nl ++ JS.nl ++ content)), s1))
  /\ (JS.get args "offset" = JNum 0 ->
      execute facade unmodelled args context s
      = (Ok (JStr (("--- Document Info ---" ++ JS.nl
                    ++ "Total Lines: " ++ JS.Number_toString total ++ JS.nl)
                   ++ "Current Range: 0-" ++ JS.Number_toString (total - 1)
                   ++ " (showing " ++ JS.Number_toString total ++ " lines)"
                   ++ JS.nl ++ "--- End Info ---" ++ JS.nl ++ JS.nl
                   ++ content)), s1)).
Proof.
  intros Hread Hlimit total.
  assert (Htotal : Z.of_nat (List.length (split_lines content)) = total)
    by now rewrite length_split_lines.
  split; intros Hoffset; (eapply execute_page; [exact Hread|]);
    rewrite Hoffset, Hlimit; unfold page; rewrite Htotal; [reflexivity|].
  cbn [to_number show JS.ToString].
  destruct (Z.leb_spec total 0) as [H|H]; [unfold total in H; lia|].
  rewrite Z.min_id, Z.sub_0_r.
  rewrite slice_inside by lia.
  rewrite skipn_O, firstn_all2 by lia.
  now rewrite join_split_lines.
Qed.

(** X13. A page inside the document, [offset] an integer n with
    0 <= n < total and [limit] an integer m >= 0: the text is the header
    followed by the lines n to min(n + m, total) - 1 of the document,
    joined by line feeds, and the number of lines announced in the
    header is the number of lines returned.  (Integers only: [JNum]
    holds no fraction, and with a fraction the code announces the
    fraction and slices at the integer below it.) *)
Theorem GetDocumentContent_page args context content n m s s1 :
  Facade.getFileContent facade (JS.get args "document_id") s
  = (Ok (JStr content), s1) ->
  JS.get args "offset" = JNum n ->
  JS.get args "limit" = JNum m ->
  let lines := split_lines content in
  let total := Z.of_nat (List.length lines) in
  (0 <= n < total)%Z ->
  (0 <= m)%Z ->
  let finish := Z.min (n + m) total in
  let selected := firstn (Z.to_nat (finish - n)) (skipn (Z.to_nat n) lines) in
  execute facade unmodelled args context s
  = (Ok (JStr (("--- Document Info ---" ++ JS.nl
                ++ "Total Lines: " ++ JS.Number_toString total ++ JS.nl)
               ++ "Current Range: " ++ JS.Number_toString n ++ "-"
               ++ JS.Number_toString (finish - 1)
               ++ " (showing " ++ JS.Number_toString (finish - n) ++ " lines)"
               ++ JS.nl ++ "--- End Info ---" ++ JS.nl ++ JS.nl
               ++ JS.join JS.nl selected)), s1)
  /\ Z.of_nat (List.length selected) = (finish - n)%Z
  /\ (forall i, (i < List.length selected)%nat ->
        nth_error selected i = nth_error lines (Z.to_nat n + i)).
Proof.
  intros Hread Hoffset Hlimit lines total Hn Hm finish selected.
  assert (Hlength : Z.of_nat (List.length selected) = (finish - n)%Z).
  { unfold selected. rewrite length_firstn, length_skipn.
    fold lines. unfold finish, total in *. lia. }
  split; [|split; [exact Hlength|]].
  - eapply execute_page; [exact Hread|]. rewrite Hoffset, Hlimit. unfold page.
    fold lines total. cbn [to_number show JS.ToString option_map].
    destruct (Z.leb_spec total n) as [H|H]; [lia|].
    fold finish. rewrite slice_inside by (unfold finish, total; lia).
    reflexivity.
  - intros i Hi. unfold selected.
    rewrite nth_error_firstn.
    destruct (Nat.ltb_spec i (Z.to_nat (finish - n))) as [_|H]; [|lia].
    apply nth_error_skipn.
Qed.



(** X16. When the workspace answers anything but a string for the
    content, [get_document_content] rejects with a TypeError, whatever
    [offset] and [limit] are. *)
Theorem GetDocumentContent_not_text args context answer s s1 :
  Facade.getFileContent facade (JS.get args "document_id") s
  = (Ok answer, s1) ->
  (forall content, answer <> JStr content) ->
  exists m,
    execute facade unmodelled args context s = (Throw (TypeError m), s1).
Proof.
  intros Hread Hanswer. unfold execute, bind. rewrite Hread.
  destruct answer as [| |b|z|content|l|o]; try (eexists; reflexivity).
  now destruct (Hanswer content).
Qed.

End DocumentPages.

(** ** Moving documents *)

Section MoveDocuments.

Import MoveDocumentsHandler.

Lemma stringify_array_bracket ids text :
  JS.JSON_stringify (JArr ids) = Some text -> starts_with_bracket text = true.
Proof.
  unfold JS.JSON_stringify. rewrite Serialize_JArr.
  destruct ids; intros [= <-]; reflexivity.
Qed.

(** The JSON text of an array of ids is read as the array. *)
Lemma fromIds_of_text ids text :
  JS.is_json (JArr ids) = true ->
  JS.JSON_stringify (JArr ids) = Some text ->
  fromIds_of (JStr text) = Some (Ok ids).
Proof.
  intros Hjson Htext. unfold fromIds_of.
  rewrite (stringify_array_bracket _ _ Htext).
  destruct (JSON_parse_stringify _ Hjson) as (text' & Htext' & Hparse).
  rewrite Htext in Htext'. injection Htext' as <-. now rewrite Hparse.
Qed.

Context {W : Type}.

Variable facade : Facade.t W.
Variable unmodelled : JSObject -> M W JSValue.

Implicit Types (s : State W) (args : JSObject)
  (context : ExecutionContext W).

(** X17. [move_documents] checks its arguments before any call of the
    workspace, the ids first: a [from_ids] that is neither a string nor
    an array is refused whatever the destinations are; then neither
    destination, and both destinations, are refused, each with its own
    message. *)
Theorem MoveDocuments_checks args context s :
  ((forall l, JS.get args "from_ids" <> JArr l) ->
   (forall text, JS.get args "from_ids" <> JStr text) ->
   execute facade unmodelled args context s
   = (Throw (Error "from_ids must be a string or array of strings"), s))
  /\ (forall ids,
        fromIds_of (JS.get args "from_ids") = Some (Ok ids) ->
        (JS.truthy (JS.get args "to_parent_id") = false ->
         JS.truthy (JS.get args "to_notebook_root") = false ->
         execute facade unmodelled args context s
         = (Throw (Error "Must provide exactly one of: to_parent_id (for nested placement) or to_notebook_root (for root placement)"),
            s))
        /\ (JS.truthy (JS.get args "to_parent_id") = true ->
            JS.truthy (JS.get args "to_notebook_root") = true ->
            execute facade unmodelled args context s
            = (Throw (Error "Cannot provide both to_parent_id and to_notebook_root - choose only one target location"),
               s))).
Proof.
  split.
  - intros Harray Htext. unfold execute.
    destruct (JS.get args "from_ids") as [| |b|z|text|l|o]; try reflexivity.
    + now destruct (Htext text).
    + now destruct (Harray l).
  - intros ids Hids. unfold execute. rewrite Hids.
    split; intros -> ->; reflexivity.
Qed.

(** X18. With ids given as an array, or as a string that is one id or
    the JSON text of an array of strings, and with exactly one
    destination, [move_documents] makes one call of the workspace,
    [moveDocumentsByIds] for a parent document and
    [moveDocumentsToNotebookRoot] for a notebook; when the call
    resolves, the answer counts the ids moved and echoes the ids and
    both destination arguments; when it rejects, so does
    [move_documents].  (A JSON text whose array holds anything but
    strings is left out: the model of [JSON.parse] is exact on
    strings.) *)
Theorem MoveDocuments_moved args context ids s :
  JS.get args "from_ids" = JArr ids
  \/ (fromIds_of (JS.get args "from_ids") = Some (Ok ids)
      /\ Forall (fun id => exists text, id = JStr text) ids) ->
  let answer :=
    JObj [("success", JBool true);
          ("moved_count", JNum (Z.of_nat (List.length ids)));
          ("from_ids", JArr ids);
          ("to_parent_id", JS.get args "to_parent_id");
          ("to_notebook_root", JS.get args "to_notebook_root")] in
  let outcome_of (run : Result JSValue * State W) :=
    match run with
    | (Ok _, s1) => (Ok answer, s1)
    | (Throw e, s1) => (Throw e, s1)
    end in
  (JS.truthy (JS.get args "to_parent_id") = true ->
   JS.truthy (JS.get args "to_notebook_root") = false ->
   execute facade unmodelled args context s
   = outcome_of (Facade.moveDocumentsByIds facade (JArr ids)
                   (JS.get args "to_parent_id") s))
  /\ (JS.truthy (JS.get args "to_parent_id") = false ->
      JS.truthy (JS.get args "to_notebook_root") = true ->
      execute facade unmodelled args context s
      = outcome_of (Facade.moveDocumentsToNotebookRoot facade (JArr ids)
                      (JS.get args "to_notebook_root") s)).
Proof.
  intros Hgiven answer outcome_of.
  assert (Hids : fromIds_of (JS.get args "from_ids") = Some (Ok ids)).
  { destruct Hgiven as [-> | [Hids _]]; [reflexivity | exact Hids]. }
  split; intros Hparent Hroot; unfold execute; rewrite Hids;
    unfold bind at 1, lift; rewrite Hparent, Hroot; cbn [negb andb];
    unfold bind, outcome_of;
    match goal with |- context [?op facade ?a ?b s] =>
      destruct (op facade a b s) as [[v|e] s1] end; reflexivity.
Qed.

(** X19. The ids may come as an array, as the JSON text of the array,
    or, for one id that does not start with a bracket, as the id itself:
    [move_documents] does the same in each case.  The JSON text is that
    of [JSON.stringify] for an array of JSON values. *)
Theorem MoveDocuments_ids_forms (rest : JSObject) context s :
  (forall ids text,
     JS.is_json (JArr ids) = true ->
     JS.JSON_stringify (JArr ids) = Some text ->
     execute facade unmodelled (("from_ids", JStr text) :: rest) context s
     = execute facade unmodelled (("from_ids", JArr ids) :: rest) context s)
  /\ (forall id,
        starts_with_bracket id = false ->
        execute facade unmodelled (("from_ids", JStr id) :: rest) context s
        = execute facade unmodelled (("from_ids", JArr [JStr id]) :: rest)
            context s).
Proof.
  assert (Hhead : forall v, JS.get (("from_ids", v) :: rest) "from_ids" = v)
    by reflexivity.
  assert (Hparent : forall v,
            JS.get (("from_ids", v) :: rest) "to_parent_id"
            = JS.get rest "to_parent_id") by reflexivity.
  assert (Hroot : forall v,
            JS.get (("from_ids", v) :: rest) "to_notebook_root"
            = JS.get rest "to_notebook_root") by reflexivity.
  split.
  - intros ids text Hjson Htext. unfold execute.
    rewrite !Hhead, !Hparent, !Hroot.
    now rewrite (fromIds_of_text _ _ Hjson Htext).
  - intros id Hid. unfold execute. rewrite !Hhead, !Hparent, !Hroot.
    unfold fromIds_of. now rewrite Hid.
Qed.

End MoveDocuments.

(** ** The server on values that are not errors, and on prompts *)

Section RouterFacts.

Context {W : Type}.
Implicit Types (this : SiyuanMCPServer W) (s : State W).

(** X20. When [execute] of a registered handler throws a value [v] that
    is not an [Error], the text of the envelope is ["Error: " +
    String(v)]; and when [String(v)] itself throws (an object whose own
    [toString] property hides the inherited method), the catch block
    does not complete: the call-tool handler rejects, and the caller gets
    a protocol-level error instead of an envelope. *)
Theorem CallTool_thrown_value this n args handler (v : JSValue) s s1 :
  get (registry this) n = Some handler ->
  execute handler (or_empty args) (context this)
    (logged INFO ("Tool called: " ++ n) s) = (Throw (NonError v), s1) ->
  (forall m, JS.ToString v = Ok m ->
     CallToolRequestHandler this n args s
     = (Ok {| CallToolResult.content := [{| TextContent.type := "text";
                                            TextContent.text := "Error: " ++ m |}];
              CallToolResult.isError := Some true |},
        logged ERROR ("Tool execution failed: " ++ m) s1))
  /\ (forall o, v = JObj o -> JS.has o "toString" = true ->
        exists e,
          CallToolRequestHandler this n args s = (Throw e, s1)
          /\ dispatch this (CallToolRequest n args) s = (ProtocolError e, s1)).
Proof.
  intros Hget Hexec.
  pose proof (CallTool_registered this n args handler s Hget) as Hcall.
  rewrite Hexec in Hcall. simpl message_of in Hcall.
  split.
  - intros m Hm. now rewrite Hm in Hcall.
  - intros o -> Hown. simpl JS.ToString in Hcall. rewrite Hown in Hcall.
    eexists. split; [exact Hcall|].
    unfold dispatch, respond. now rewrite Hcall.
Qed.

(** X21. The prompts that [ListPrompts] announces are the prompts that
    [GetPrompt] serves: a name is listed exactly when [GetPrompt]
    resolves for it; neither handler logs or calls the workspace. *)
Theorem prompts_listed_are_served (n : string) s :
  exists prompts,
    ListPromptsRequestHandler s = (Ok prompts, s)
    /\ (In n (map Prompt.name prompts)
        <-> exists messages,
              GetPromptRequestHandler n s = (Ok messages, s))
    /\ (~ In n (map Prompt.name prompts)
        <-> GetPromptRequestHandler n s
            = (Throw (Error ("Unknown prompt: " ++ n)), s)).
Proof.
  eexists. split; [reflexivity|]. unfold GetPromptRequestHandler.
  cbn [map Prompt.name In].
  destruct (String.eqb_spec n "siyuan-usage-guide") as [-> | Hn].
  - split; split.
    + intros _. eexists. reflexivity.
    + intros _. now left.
    + intros H. destruct H. now left.
    + discriminate.
  - split; split.
    + intros [H | []]. now destruct Hn.
    + intros [messages H]. discriminate.
    + reflexivity.
    + intros _ [H | []]. now destruct Hn.
Qed.

End RouterFacts.

(** ** The statement of [find_block_in_document] as SQL reads it *)

Section SqlText.

Import FindBlockInDocumentHandler.

Lemma prepend_nil r : JS.prepend "" r = r.
Proof. now destruct r as [[a b]|]. Qed.

Lemma prepend_prepend a b r :
  JS.prepend a (JS.prepend b r) = JS.prepend (a ++ b) r.
Proof. destruct r as [[x y]|]; simpl; [|reflexivity]. now rewrite append_assoc. Qed.

(** Text with its quotes doubled is read as the text, whatever follows. *)
Lemma read_sql_literal_double_quotes q rest :
  read_sql_literal (double_quotes q ++ rest)
  = JS.prepend q (read_sql_literal rest).
Proof.
  induction q as [|c t IH]; simpl double_quotes.
  - now rewrite append_nil_l, prepend_nil.
  - destruct (Ascii.eqb c "'") eqn:Hc.
    + apply Ascii.eqb_eq in Hc. subst c.
      rewrite !append_String. simpl read_sql_literal.
      rewrite IH, prepend_prepend. reflexivity.
    + rewrite append_String. simpl read_sql_literal. rewrite Hc.
      rewrite IH, prepend_prepend. reflexivity.
Qed.

(** Quote-free text is read as it is, whatever follows. *)
Lemma read_sql_literal_quote_free a rest :
  quote_free a = true ->
  read_sql_literal (a ++ rest) = JS.prepend a (read_sql_literal rest).
Proof.
  induction a as [|c t IH]; simpl quote_free; intros Ha.
  - now rewrite append_nil_l, prepend_nil.
  - apply andb_prop in Ha as [Hc Ht]. apply negb_true_iff in Hc.
    rewrite append_String. simpl read_sql_literal. rewrite Hc.
    rewrite (IH Ht), prepend_prepend. reflexivity.
Qed.

Lemma read_sql_literal_end c rest :
  Ascii.eqb c "'" = false ->
  read_sql_literal ("'" ++ String c rest) = Some ("", String c rest).
Proof.
  intros Hc. rewrite append_String, append_nil_l. simpl. now rewrite Hc.
Qed.

Variable StringToNumber_positive : string -> bool.

Lemma types_clause_head types clause :
  types_clause StringToNumber_positive types = Ok clause ->
  clause = "" \/ exists rest, clause = " AND type IN (" ++ rest.
Proof.
  unfold types_clause. destruct (negb (JS.truthy types)).
  { intros [= <-]. now left. }
  destruct types as [| |b|z|text|[|t l]|o]; try (intros [= <-]; now left);
    try discriminate.
  - destruct (quote_types (t :: l)) as [quoted|]; [|discriminate].
    intros [= <-]. right. eexists. reflexivity.
  - destruct (greater_than_zero _ _) as [[|]|]; try discriminate.
    intros [= <-]. now left.
Qed.

(** X22. Whatever quotes the query has, it does not leave its string
    literal: in the statement that [find_block_in_document] builds, the
    literal after [LIKE], read as SQL reads it (two quotes for one), is
    the query between two percent signs, and what follows the literal is
    the rest of the statement as the code wrote it, the clause on types
    if any and [ LIMIT 20]. *)
Theorem FindBlock_query_stays_quoted (args : JSObject) document_id q clause :
  JS.ToString (JS.get args "document_id") = Ok document_id ->
  JS.get args "query" = JStr q ->
  types_clause StringToNumber_positive (JS.get args "types") = Ok clause ->
  exists literal,
    build_sql StringToNumber_positive args
    = Ok ("SELECT id, type, content FROM blocks WHERE root_id = '"
          ++ document_id ++ "' AND content LIKE '" ++ literal)
    /\ read_sql_literal literal
       = Some ("%" ++ q ++ "%", clause ++ " LIMIT 20").
Proof.
  intros Hid Hquery Hclause.
  exists ("%" ++ double_quotes q ++ "%" ++ "'" ++ clause ++ " LIMIT 20").
  split.
  - unfold build_sql. rewrite Hid, Hquery, Hclause. simpl replace_quotes.
    cbv iota. f_equal. rewrite !append_assoc. reflexivity.
  - rewrite (read_sql_literal_quote_free "%") by reflexivity.
    rewrite read_sql_literal_double_quotes.
    rewrite (read_sql_literal_quote_free "%") by reflexivity.
    destruct (types_clause_head _ _ Hclause) as [-> | [rest ->]].
    + rewrite append_nil_l.
      rewrite (read_sql_literal_end " " "LIMIT 20") by reflexivity.
      simpl JS.prepend. now rewrite !append_nil_r.
    + rewrite !append_assoc.
      change (" AND type IN (" ++ rest ++ " LIMIT 20")
        with (String " " ("AND type IN (" ++ rest ++ " LIMIT 20")).
      rewrite read_sql_literal_end by reflexivity.
      simpl JS.prepend. now rewrite !append_nil_r.
Qed.

(** X23. The document id is written between quotes as it is: a quote in
    it ends the literal of [root_id], and what follows that quote in the
    document id is read as part of the statement. *)
Theorem FindBlock_document_id_verbatim (args : JSObject) a c b q clause :
  JS.get args "document_id" = JStr (a ++ "'" ++ String c b) ->
  quote_free a = true ->
  Ascii.eqb c "'" = false ->
  JS.get args "query" = JStr q ->
  types_clause StringToNumber_positive (JS.get args "types") = Ok clause ->
  exists literal rest,
    build_sql StringToNumber_positive args
    = Ok ("SELECT id, type, content FROM blocks WHERE root_id = '" ++ literal)
    /\ read_sql_literal literal = Some (a, String c b ++ rest).
Proof.
  intros Hid Ha Hc Hquery Hclause.
  exists ((a ++ "'" ++ String c b) ++ "' AND content LIKE '%"
          ++ double_quotes q ++ "%'" ++ clause ++ " LIMIT 20").
  eexists. split.
  - unfold build_sql. rewrite Hid, Hquery, Hclause. simpl JS.ToString.
    simpl replace_quotes. cbv iota. f_equal. rewrite !append_assoc.
    reflexivity.
  - rewrite !append_assoc. rewrite (read_sql_literal_quote_free a) by exact Ha.
    rewrite (append_String c b).
    rewrite (read_sql_literal_end c) by exact Hc.
    simpl JS.prepend. rewrite append_nil_r. reflexivity.
Qed.

End SqlText.

(** ** Concrete runs over the sample client and facade *)

Lemma BlockApi_new_block_id_witness :
  BlockApi.insertBlockBefore (answering inserted_answer)
    (JStr "20240101120000-aaaaaaa") (JStr "text") initial
  = (Ok sample_block_id, mkState [] ["/api/block/insertBlock"]).
Proof.
  exact (proj1 (BlockApi_new_block_id (answering inserted_answer)
                  (JStr "20240101120000-aaaaaaa") (JStr "text")
                  inserted_answer _ _ _ _ initial _
                  eq_refl eq_refl eq_refl) eq_refl).
Defined.

Lemma BlockApi_failure_reported_witness :
  BlockApi.updateBlock (answering refused_answer)
    (JStr "20240101120000-aaaaaaa") (JStr "text") initial
  = (Throw (Error "Failed to update block: block not found"),
     mkState [] ["/api/block/updateBlock"]).
Proof.
  exact (proj1 (BlockApi_failure_reported (answering refused_answer)
                  (JStr "20240101120000-aaaaaaa") (JStr "text") JUndefined
                  refused_answer "block not found" initial
                  (mkState [] ["/api/block/updateBlock"])
                  eq_refl eq_refl) eq_refl).
Defined.

Lemma BlockApi_missing_operation_witness :
  let answer := {| SiyuanResponse.code := JNum 0;
                   SiyuanResponse.msg := JStr "";
                   SiyuanResponse.data := JArr [] |} in
  exists m,
    BlockApi.appendBlock (answering answer)
      (JStr "20240101120000-aaaaaaa") (JStr "text") initial
    = (Throw (TypeError m), mkState [] ["/api/block/appendBlock"]).
Proof.
  intros answer.
  destruct (BlockApi_missing_operation (answering answer)
              (JStr "20240101120000-aaaaaaa") (JStr "text") answer initial
              (mkState [] ["/api/block/appendBlock"])
              eq_refl (or_introl eq_refl)) as (m & _ & _ & H).
  exists m. exact (H eq_refl).
Defined.

Lemma CallTool_insert_block_over_api_witness :
  CallToolRequestHandler
    {| registry := sample_handlers;
       context := client_context (answering refused_answer) |}
    "insert_block"
    (Some [("content", JStr "text");
           ("before_id", JStr "20240101120000-aaaaaaa")]) initial
  = (Ok {| CallToolResult.content :=
             [{| TextContent.type := "text";
                 TextContent.text := "Error: Failed to insert block: block not found" |}];
           CallToolResult.isError := Some true |},
     mkState
       [(INFO, "Tool called: insert_block");
        (ERROR,
         "Tool execution failed: Failed to insert block: block not found")]
       ["/api/block/insertBlock"]).
Proof.
  exact (proj1 (CallTool_insert_block_over_api
                  {| registry := sample_handlers;
                     context := client_context (answering refused_answer) |}
                  (answering refused_answer)
                  [("content", JStr "text");
                   ("before_id", JStr "20240101120000-aaaaaaa")]
                  refused_answer initial
                  (mkState [(INFO, "Tool called: insert_block")]
                     ["/api/block/insertBlock"])
                  eq_refl eq_refl eq_refl eq_refl eq_refl)
           "block not found" eq_refl eq_refl).
Defined.

Lemma block_writes_resolve_on_code_0_witness :
  UpdateBlockHandler.execute (sample_facade (answering inserted_answer))
    [("block_id", sample_block_id); ("content", JStr "text")]
    sample_context initial
  = (Ok (JObj [("success", JBool true); ("block_id", sample_block_id)]),
     mkState [] ["/api/block/updateBlock"])
  /\ exists response,
       request (answering inserted_answer) "/api/block/updateBlock"
         (JObj [("id", sample_block_id); ("dataType", JStr "markdown");
                ("data", JStr "text")]) initial
       = (Ok response, mkState [] ["/api/block/updateBlock"])
       /\ SiyuanResponse.code response = JNum 0.
Proof.
  split; [reflexivity|].
  exact (proj2 (proj1 (block_writes_resolve_on_code_0
                         (sample_facade (answering inserted_answer))
                         (answering inserted_answer)
                         [("block_id", sample_block_id);
                          ("content", JStr "text")]
                         sample_context initial
                         (JObj [("success", JBool true);
                                ("block_id", sample_block_id)])
                         (mkState [] ["/api/block/updateBlock"])
                         eq_refl eq_refl eq_refl) eq_refl)).
Defined.

Lemma CreateSnapshot_message_witness :
  exists result,
    CreateSnapshotHandler.execute (sample_facade (answering inserted_answer))
      [("memo", JStr "")] sample_context initial
    = (Ok (JObj result), mkState [] ["createSnapshot"])
    /\ JS.get result "message"
       = JStr ("Snapshot created successfully with memo: " ++ JS.dq
               ++ "Auto snapshot" ++ JS.dq)
    /\ JS.get result "memo" = JStr "Auto snapshot".
Proof.
  destruct (CreateSnapshot_message (sample_facade (answering inserted_answer))
              [("memo", JStr "")] sample_context initial
              [("success", JBool true); ("memo", JStr "Auto snapshot");
               ("message", JStr "from the workspace")]
              (mkState [] ["createSnapshot"]) "Auto snapshot"
              eq_refl eq_refl) as (result & Hrun & Hmessage & Hother).
  exists result. split; [exact Hrun|]. split; [exact Hmessage|].
  destruct (Hother "memo") as [Hmemo _]; [discriminate|].
  rewrite Hmemo. reflexivity.
Defined.

Lemma GetDocumentContent_whole_witness :
  GetDocumentContentHandler.execute (answering_content (JStr sample_document))
    (fun _ _ _ => Ok JUndefined) [("document_id", JStr "20240101120000-doc0001")]
    sample_context initial
  = (Ok (JStr ("--- Document Info ---" ++ JS.nl ++ "Total Lines: 3" ++ JS.nl
               ++ "--- End Info ---" ++ JS.nl ++ JS.nl
               ++ "alpha" ++ JS.nl ++ "beta" ++ JS.nl ++ "gamma")),
     mkState [] ["getFileContent"]).
Proof.
  exact (proj1 (GetDocumentContent_whole
                  (answering_content (JStr sample_document))
                  (fun _ _ _ => Ok JUndefined)
                  [("document_id", JStr "20240101120000-doc0001")]
                  sample_context sample_document initial
                  (mkState [] ["getFileContent"]) eq_refl eq_refl) eq_refl).
Defined.

Lemma GetDocumentContent_page_witness :
  GetDocumentContentHandler.execute (answering_content (JStr sample_document))
    (fun _ _ _ => Ok JUndefined)
    [("document_id", JStr "20240101120000-doc0001");
     ("offset", JNum 1); ("limit", JNum 1)]
    sample_context initial
  = (Ok (JStr ("--- Document Info ---" ++ JS.nl ++ "Total Lines: 3" ++ JS.nl
               ++ "Current Range: 1-1 (showing 1 lines)" ++ JS.nl
               ++ "--- End Info ---" ++ JS.nl ++ JS.nl ++ "beta")),
     mkState [] ["getFileContent"]).
Proof.
  refine (proj1 (GetDocumentContent_page
                   (answering_content (JStr sample_document))
                   (fun _ _ _ => Ok JUndefined)
                   [("document_id", JStr "20240101120000-doc0001");
                    ("offset", JNum 1); ("limit", JNum 1)]
                   sample_context sample_document 1 1 initial
                   (mkState [] ["getFileContent"])
                   eq_refl eq_refl eq_refl _ _)).
  - vm_compute. split; [discriminate | reflexivity].
  - vm_compute. discriminate.
Defined.



Lemma GetDocumentContent_not_text_witness :
  exists m,
    GetDocumentContentHandler.execute (answering_content JNull)
      (fun _ _ _ => Ok JUndefined)
      [("document_id", JStr "20240101120000-doc0001")] sample_context initial
    = (Throw (TypeError m), mkState [] ["getFileContent"]).
Proof.
  refine (GetDocumentContent_not_text (answering_content JNull)
            (fun _ _ _ => Ok JUndefined)
            [("document_id", JStr "20240101120000-doc0001")]
            sample_context JNull initial (mkState [] ["getFileContent"])
            eq_refl _).
  intros content. discriminate.
Defined.

Lemma MoveDocuments_moved_witness :
  MoveDocumentsHandler.execute (sample_facade (answering inserted_answer))
    (fun _ => ret JUndefined)
    [("from_ids", JArr [JStr "20240101120000-doc0001";
                        JStr "20240101120000-doc0002"]);
     ("to_parent_id", JStr "20240101120000-doc0003")]
    sample_context initial
  = (Ok (JObj [("success", JBool true); ("moved_count", JNum 2);
               ("from_ids", JArr [JStr "20240101120000-doc0001";
                                  JStr "20240101120000-doc0002"]);
               ("to_parent_id", JStr "20240101120000-doc0003");
               ("to_notebook_root", JUndefined)]),
     mkState [] ["moveDocumentsByIds"])
  /\ MoveDocumentsHandler.execute (sample_facade (answering inserted_answer))
       (fun _ => ret JUndefined)
       [("from_ids", JStr ("[" ++ JS.dq ++ "20240101120000-doc0001" ++ JS.dq
                           ++ "]"));
        ("to_notebook_root", JStr "20240101120000-nb00001")]
       sample_context initial
     = (Ok (JObj [("success", JBool true); ("moved_count", JNum 1);
                  ("from_ids", JArr [JStr "20240101120000-doc0001"]);
                  ("to_parent_id", JUndefined);
                  ("to_notebook_root", JStr "20240101120000-nb00001")]),
        mkState [] ["moveDocumentsToNotebookRoot"]).
Proof.
  split.
  - exact (proj1 (MoveDocuments_moved
                    (sample_facade (answering inserted_answer))
                    (fun _ => ret JUndefined)
                    [("from_ids", JArr [JStr "20240101120000-doc0001";
                                        JStr "20240101120000-doc0002"]);
                     ("to_parent_id", JStr "20240101120000-doc0003")]
                    sample_context
                    [JStr "20240101120000-doc0001";
                     JStr "20240101120000-doc0002"]
                    initial (or_introl eq_refl)) eq_refl eq_refl).
  - refine (proj2 (MoveDocuments_moved
                     (sample_facade (answering inserted_answer))
                     (fun _ => ret JUndefined)
                     [("from_ids",
                       JStr ("[" ++ JS.dq ++ "20240101120000-doc0001" ++ JS.dq
                             ++ "]"));
                      ("to_notebook_root", JStr "20240101120000-nb00001")]
                     sample_context [JStr "20240101120000-doc0001"]
                     initial (or_intror (conj eq_refl _))) eq_refl eq_refl).
    repeat constructor. eexists. reflexivity.
Defined.

Lemma CallTool_thrown_value_witness :
  CallToolRequestHandler
    {| registry := [throwing_value (JNum 42)]; context := sample_context |}
    "throwing" None initial
  = (Ok {| CallToolResult.content := [{| TextContent.type := "text";
                                         TextContent.text := "Error: 42" |}];
           CallToolResult.isError := Some true |},
     mkState [(INFO, "Tool called: throwing");
              (ERROR, "Tool execution failed: 42")] [])
  /\ exists e,
       dispatch
         {| registry := [throwing_value (JObj [("toString", JNum 1)])];
            context := sample_context |}
         (CallToolRequest "throwing" None) initial
       = (ProtocolError e, mkState [(INFO, "Tool called: throwing")] []).
Proof.
  split.
  - exact (proj1 (CallTool_thrown_value
                    {| registry := [throwing_value (JNum 42)];
                       context := sample_context |}
                    "throwing" None (throwing_value (JNum 42)) (JNum 42)
                    initial (mkState [(INFO, "Tool called: throwing")] [])
                    eq_refl eq_refl) "42" eq_refl).
  - destruct (proj2 (CallTool_thrown_value
                       {| registry :=
                            [throwing_value (JObj [("toString", JNum 1)])];
                          context := sample_context |}
                       "throwing" None
                       (throwing_value (JObj [("toString", JNum 1)]))
                       (JObj [("toString", JNum 1)])
                       initial (mkState [(INFO, "Tool called: throwing")] [])
                       eq_refl eq_refl) [("toString", JNum 1)]
                eq_refl eq_refl) as (e & _ & H).
    exists e. exact H.
Defined.

Lemma FindBlock_query_stays_quoted_witness :
  exists literal,
    FindBlockInDocumentHandler.build_sql (fun _ => false)
      [("document_id", JStr "20240101120000-doc0001");
       ("query", JStr "it's")]
    = Ok ("SELECT id, type, content FROM blocks WHERE root_id = '"
          ++ "20240101120000-doc0001" ++ "' AND content LIKE '" ++ literal)
    /\ read_sql_literal literal = Some ("%it's%", " LIMIT 20").
Proof.
  exact (FindBlock_query_stays_quoted (fun _ => false)
           [("document_id", JStr "20240101120000-doc0001");
            ("query", JStr "it's")]
           "20240101120000-doc0001" "it's" "" eq_refl eq_refl eq_refl).
Defined.

Lemma FindBlock_document_id_verbatim_witness :
  exists literal rest,
    FindBlockInDocumentHandler.build_sql (fun _ => false)
      [("document_id", JStr "x' OR 1=1 --"); ("query", JStr "a")]
    = Ok ("SELECT id, type, content FROM blocks WHERE root_id = '" ++ literal)
    /\ read_sql_literal literal = Some ("x", " OR 1=1 --" ++ rest).
Proof.
  exact (FindBlock_document_id_verbatim (fun _ => false)
           [("document_id", JStr "x' OR 1=1 --"); ("query", JStr "a")]
           "x" " " "OR 1=1 --" "a" "" eq_refl eq_refl eq_refl eq_refl
           eq_refl).
Defined.
